(** * Roundtable report and archive views

    A shallow embedding of the two page scripts of the roundtable site,
    [app.js] (the report view) and [archive.js] (the archive view), and
    the properties of their rendering that the site's description states.

    Both scripts are one asynchronous function that fetches a JSON
    document, writes strings into regions of the page inside a [try]
    block, and replaces them by a fixed message in the [catch] handler.
    The embedding has three layers:

    - JavaScript strings, as sequences of UTF-16 code units, with the
      string methods the scripts call ([trim], [padStart], [slice],
      [join]);
    - the values [JSON.parse] returns, with property access, optional
      chaining, truthiness and the string conversion used by template
      literals, [String()], [+] and [Array.prototype.join];
    - the page: a store of region contents and the console, threaded
      through a state-and-exception monad in which a write made before a
      [throw] is still there when the handler runs.

    What an [innerHTML] assignment shows is read through the part of
    the HTML tokenizer and tree construction that the two templates
    use. *)

From Stdlib Require Import List NArith ZArith Bool Ascii String Lia.
From Stdlib Require Import DecimalString Sorting.Sorted Sorting.Permutation.
From Stdlib Require DecimalPos DecimalN.
Import ListNotations.

Set Implicit Arguments.
Set Warnings "-register-all".

(* ================================================================== *)
(** ** JavaScript strings *)
(* ================================================================== *)

Module JsString.

(** A string value is a finite sequence of 16-bit code units; [length],
    [slice], [padStart] and the default sort order all count and compare
    code units. *)
Definition code_unit := N.
Definition t := list code_unit.

(** An ASCII literal of the source, one code unit per character. *)
Definition lit (s : string) : t := map N_of_ascii (list_ascii_of_string s).

(** U+2014 EM DASH, the separator of the day label and of the artifact
    line, and U+0022 QUOTATION MARK, which delimits the [href] value. *)
Definition em_dash : code_unit := 8212%N.
Definition dquote : code_unit := 34%N.

Definition eqb (a b : t) : bool :=
  if list_eq_dec N.eq_dec a b then true else false.

(** WhiteSpace and LineTerminator of ECMA-262 (what [trim] strips):
    TAB, VT, FF, SP, NBSP, ZWNBSP, the Space_Separator category, then
    LF, CR, LS, PS. *)
Definition is_white (c : code_unit) : bool :=
  ((c =? 9) || (c =? 11) || (c =? 12) || (c =? 32) || (c =? 160)
   || (c =? 65279) || (c =? 5760) || ((8192 <=? c) && (c <=? 8202))
   || (c =? 8239) || (c =? 8287) || (c =? 12288)
   || (c =? 10) || (c =? 13) || (c =? 8232) || (c =? 8233))%N.

Fixpoint trimStart (s : t) : t :=
  match s with
  | c :: s' => if is_white c then trimStart s' else s
  | [] => []
  end.

Definition trimEnd (s : t) : t := rev (trimStart (rev s)).

(** [String.prototype.trim]. *)
Definition trim (s : t) : t := trimEnd (trimStart s).

(** [s.padStart(n, fill)] for a one-unit [fill]: nothing is added to a
    string that already has [n] units. *)
Definition padStart (n : nat) (fill : code_unit) (s : t) : t :=
  repeat fill (n - List.length s) ++ s.

(** [s.slice(i, j)] for constant [0 <= i <= j]: the units of index [i]
    up to [j - 1] that exist. [Array.prototype.slice] does the same to
    the elements of an array. *)
Definition slice {A : Type} (i j : nat) (s : list A) : list A :=
  firstn (j - i) (skipn i s).

(** [parts.join(sep)] on an array whose elements are already strings. *)
Fixpoint join (sep : t) (parts : list t) : t :=
  match parts with
  | [] => []
  | [p] => p
  | p :: rest => p ++ sep ++ join sep rest
  end.

(** Code-unit lexicographic comparison, the order of [<] on strings and
    of the default [Array.prototype.sort]. *)
Fixpoint ltb (a b : t) : bool :=
  match a, b with
  | _, [] => false
  | [], _ :: _ => true
  | x :: a', y :: b' => (x <? y)%N || ((x =? y)%N && ltb a' b')
  end.

Definition leb (a b : t) : bool := negb (ltb b a).

(** Decimal text of a natural number (an HTTP status code). *)
Definition of_N (n : N) : t := lit (NilZero.string_of_uint (N.to_uint n)).

(** Decimal text of an integer, [-] first when negative. *)
Definition of_Z (z : Z) : t := lit (NilZero.string_of_int (Z.to_int z)).

End JsString.

Abbreviation jsstring := JsString.t.
Abbreviation lit := JsString.lit.

(* ================================================================== *)
(** ** JavaScript values obtained from JSON *)
(* ================================================================== *)

Module Js.

(** JSON numbers are IEEE doubles in the engine. The scripts only turn
    them into text and test them for truthiness, so the embedding takes
    the number type with these two operations as an interface; [eight]
    is the numeric literal [8] of [app.js]. *)
Class JsNumber : Type := {
  num : Type;
  NumberToString : num -> jsstring;
  (** [false] on [+0] and [-0], the only falsy numbers JSON can give *)
  num_truthy : num -> bool;
  eight : num;
  eight_text : NumberToString eight = lit "8"
}.

(** The integers that the engine prints in plain decimal notation. *)
#[export] Instance IntegerNumber : JsNumber := {|
  num := Z;
  NumberToString := JsString.of_Z;
  num_truthy := fun z => negb (z =? 0)%Z;
  eight := 8%Z;
  eight_text := eq_refl
|}.

(** What a script can throw: [new Error(message)], a [TypeError] (a
    property read on [null] or [undefined], a call of something that is
    not a function, a conversion to string that finds no method, a
    [fetch] that cannot reach the server) and the [SyntaxError] of
    [Response.json()] on a body that is not JSON. *)
Inductive exn : Type :=
| Error (message : jsstring)
| TypeError
| SyntaxError.

Inductive result (A : Type) : Type :=
| Ok (a : A)
| Throw (e : exn).
Arguments Ok {A} a.
Arguments Throw {A} e.

Definition rbind {A B : Type} (r : result A) (k : A -> result B) : result B :=
  match r with
  | Ok a => k a
  | Throw e => Throw e
  end.

Section Values.
Context {Num : JsNumber}.

(** The result of [JSON.parse]. An object is the list of its own
    properties; a key is bound to the value of its first entry. *)
Inductive json : Type :=
| JNull
| JBool (b : bool)
| JNum (n : num)
| JStr (s : jsstring)
| JArr (elems : list json)
| JObj (props : list (jsstring * json)).

(** A value of the script: [None] is [undefined]. *)
Definition value := option json.

Fixpoint assoc (k : jsstring) (props : list (jsstring * json)) : value :=
  match props with
  | [] => None
  | (k', v) :: rest => if JsString.eqb k k' then Some v else assoc k rest
  end.

(** [o[k]] for [o] other than [null] and [undefined], and [k] one of the
    property names of the two scripts, none of which is defined by
    [Object.prototype], [Array.prototype], [String.prototype],
    [Number.prototype] or [Boolean.prototype]: an object gives its own
    property, everything else [undefined]. *)
Definition prop (o : json) (k : jsstring) : value :=
  match o with
  | JObj props => assoc k props
  | _ => None
  end.

(** [v.k]: a [TypeError] on [null] and [undefined]. *)
Definition get (v : value) (k : jsstring) : result value :=
  match v with
  | None | Some JNull => Throw TypeError
  | Some o => Ok (prop o k)
  end.

(** [v?.k]: [undefined] on [null] and [undefined]. *)
Definition opt_get (v : value) (k : jsstring) : value :=
  match v with
  | None | Some JNull => None
  | Some o => prop o k
  end.

(** [ToBoolean]. *)
Definition truthy (v : value) : bool :=
  match v with
  | None | Some JNull => false
  | Some (JBool b) => b
  | Some (JNum n) => num_truthy n
  | Some (JStr s) => match s with [] => false | _ => true end
  | Some (JArr _) | Some (JObj _) => true
  end.

(** [v ?? d] and [v || d], for a default [d] that is never [undefined]. *)
Definition nullish_or (v : value) (d : json) : json :=
  match v with
  | None | Some JNull => d
  | Some x => x
  end.

Definition truthy_or (v : value) (d : json) : json :=
  match v with
  | Some x => if truthy v then x else d
  | None => d
  end.

(** [v === s] for a string [s]. *)
Definition strict_eq_str (v : value) (s : jsstring) : bool :=
  match v with
  | Some (JStr s') => JsString.eqb s' s
  | _ => false
  end.

(** The loop of [Array.prototype.join]: [null] elements give the empty
    string, the others are converted by [conv], in order. *)
Section Join.
Variable conv : json -> result jsstring.

Definition join_elem (x : json) : result jsstring :=
  match x with
  | JNull => Ok []
  | _ => conv x
  end.

Fixpoint join_elems (sep : jsstring) (l : list json) : result jsstring :=
  match l with
  | [] => Ok []
  | x :: rest =>
      rbind (join_elem x) (fun a =>
      match rest with
      | [] => Ok a
      | _ => rbind (join_elems sep rest) (fun b => Ok (a ++ sep ++ b))
      end)
  end.
End Join.

(** [ToString] of a parsed value, as done by template literals,
    [String(v)], [v + "..."] and the [textContent] setter. An array is
    joined with [","]. An object has no callable method of its own; it
    answers ["[object Object]"] through [Object.prototype.toString]
    unless an own property named [toString] hides that method, in which
    case the conversion throws. *)
Fixpoint ToString (v : json) : result jsstring :=
  match v with
  | JNull => Ok (lit "null")
  | JBool true => Ok (lit "true")
  | JBool false => Ok (lit "false")
  | JNum n => Ok (NumberToString n)
  | JStr s => Ok s
  | JArr elems => join_elems ToString (lit ",") elems
  | JObj props =>
      match assoc (lit "toString") props with
      | Some _ => Throw TypeError
      | None => Ok (lit "[object Object]")
      end
  end.

Definition ToStringV (v : value) : result jsstring :=
  match v with
  | None => Ok (lit "undefined")
  | Some x => ToString x
  end.

(** [v.join(sep)]: only an array has a [join] method. *)
Definition call_join (v : json) (sep : jsstring) : result jsstring :=
  match v with
  | JArr elems => join_elems ToString sep elems
  | _ => Throw TypeError
  end.

End Values.
End Js.
Import Js.

(* ================================================================== *)
(** ** The page and the effects of a script *)
(* ================================================================== *)

Module Page.

(** What an element holds after an assignment: [textContent = s] leaves
    the text [s]; [innerHTML = s] leaves the nodes the browser parses
    from the markup [s]. *)
Inductive content : Type :=
| Text (s : jsstring)
| Html (markup : jsstring).

Section Effects.
Variable region : Type.
Variable region_eqb : region -> region -> bool.

(** The elements a script looked up with [getElementById] (the host
    page provides all of them) and what [console.error] received, the
    latest first. *)
Record page : Type := {
  dom : region -> content;
  console : list exn
}.

(** A statement runs on a page and leaves a page, whether it completes
    or throws: writes made before a [throw] stay. *)
Definition M (A : Type) : Type := page -> page * result A.

Definition ret {A : Type} (a : A) : M A := fun p => (p, Ok a).

Definition throw {A : Type} (e : exn) : M A := fun p => (p, Throw e).

Definition bind {A B : Type} (m : M A) (k : A -> M B) : M B :=
  fun p =>
    match m p with
    | (p', Ok a) => k a p'
    | (p', Throw e) => (p', Throw e)
    end.

(** A computation without effect on the page. *)
Definition lift {A : Type} (r : result A) : M A := fun p => (p, r).

(** [try { body } catch (e) { handler }]. *)
Definition try_catch {A : Type} (body : M A) (handler : exn -> M A) : M A :=
  fun p =>
    match body p with
    | (p', Ok a) => (p', Ok a)
    | (p', Throw e) => handler e p'
    end.

(** The page after an assignment to the element [r]. *)
Definition put (r : region) (c : content) (p : page) : page :=
  {| dom := fun r' => if region_eqb r r' then c else dom p r';
     console := console p |}.

Definition write (r : region) (c : content) : M unit :=
  fun p => (put r c p, Ok tt).

(** [el.textContent = s] and [el.innerHTML = s]. *)
Definition set_textContent (r : region) (s : jsstring) : M unit :=
  write r (Text s).

Definition set_innerHTML (r : region) (s : jsstring) : M unit :=
  write r (Html s).

Definition logged (e : exn) (p : page) : page :=
  {| dom := dom p; console := e :: console p |}.

Definition console_error (e : exn) : M unit :=
  fun p => (logged e p, Ok tt).

End Effects.

(** The outcome of [fetch(url)] followed by [r.json()]: the request
    fails, or a response arrives with a status and a body that is JSON
    text or is not. *)
Inductive body {Num : JsNumber} : Type :=
| Malformed
| Parsed (j : json).

Inductive network {Num : JsNumber} : Type :=
| Unreachable
| Response (status : N) (b : body).

(** [r.ok]: the status is in the range 200-299. *)
Definition ok (status : N) : bool := ((200 <=? status) && (status <=? 299))%N.

Section Fetch.
Context {Num : JsNumber}.
Variable region : Type.

(** [await fetch(...)], [if(!r.ok) throw new Error("Fetch failed: " +
    r.status)] and [await r.json()], lines 11-13 of [app.js] and 4-6 of
    [archive.js]. *)
Definition fetch_json (net : network) : M region json :=
  match net with
  | Unreachable => throw TypeError
  | Response status b =>
      if ok status then
        match b with
        | Malformed => throw SyntaxError
        | Parsed j => ret j
        end
      else throw (Error (lit "Fetch failed: " ++ JsString.of_N status))
  end.

End Fetch.
End Page.
Import Page.

Declare Scope js_scope.
Delimit Scope js_scope with js.
Notation "x <- m ;; k" := (bind m (fun x => k))
  (at level 61, m at next level, right associativity) : js_scope.
Notation "m ;;; k" := (bind m (fun _ => k))
  (at level 61, right associativity) : js_scope.

(* ================================================================== *)
(** ** [app.js]: the report view *)
(* ================================================================== *)

Module App.

(** The seven elements of lines 2-8, by their ids. *)
Inductive region : Type :=
| status | day | diagnosis | agon | mandate | artifact | build.

Definition region_eqb (a b : region) : bool :=
  match a, b with
  | status, status | day, day | diagnosis, diagnosis | agon, agon
  | mandate, mandate | artifact, artifact | build, build => true
  | _, _ => false
  end.

Section ReportView.
Context {Num : JsNumber}.
Open Scope js_scope.

Definition page := Page.page region.
Definition M := Page.M region.
Definition textContent := @set_textContent region region_eqb.
Definition innerHTML := @set_innerHTML region region_eqb.

(** [${v ?? empty}]: the text of a field, the empty string when it is
    [null] or [undefined]. *)
Definition text_or_empty (v : value) : result jsstring :=
  ToString (nullish_or v (JStr [])).

(** Line 16. *)
Definition render_day (j : json) : M unit :=
  day_number <- lift (get (Some j) (lit "day_number")) ;;
  n <- lift (text_or_empty day_number) ;;
  date <- lift (get (Some j) (lit "date")) ;;
  d <- lift (text_or_empty date) ;;
  textContent day
    (lit "DAY " ++ JsString.padStart 3 48%N n
       ++ lit " " ++ [JsString.em_dash] ++ lit " " ++ d).

(** Line 18. *)
Definition render_diagnosis (j : json) : M unit :=
  v <- lift (get (Some j) (lit "diagnosis")) ;;
  s <- lift (text_or_empty v) ;;
  textContent diagnosis s.

(** [j.a?.k], with the [TypeError] of [j.a] when [j] is [null]. *)
Definition field_of (j : json) (a k : jsstring) : result value :=
  rbind (get (Some j) a) (fun o => Ok (opt_get o k)).

(** [j.a.k], as read again in the branch that uses it. *)
Definition field_of_strict (j : json) (a k : jsstring) : result value :=
  rbind (get (Some j) a) (fun o => get o k).

Definition newline : JsString.code_unit := 10%N.

(** Lines 20-22. *)
Definition agonText (j : json) : result jsstring :=
  rbind (field_of j (lit "agon") (lit "summary")) (fun summary =>
  rbind (if truthy summary
         then rbind (field_of_strict j (lit "agon") (lit "summary")) (fun s =>
              rbind (ToStringV s) (fun t => Ok (t ++ [newline; newline])))
         else Ok []) (fun first =>
  rbind (field_of j (lit "agon") (lit "winner")) (fun winner =>
  rbind (if truthy winner
         then rbind (field_of_strict j (lit "agon") (lit "winner")) (fun w =>
              rbind (ToStringV w) (fun t => Ok (lit "Winner: " ++ t)))
         else Ok []) (fun second =>
  Ok (first ++ second))))).

(** Line 23. *)
Definition render_agon (j : json) : M unit :=
  t <- lift (agonText j) ;;
  textContent agon (JsString.trim t).

(** One entry of the array literal of lines 26-32, for the entries
    built as [`label ${m.k ?? empty}`.trim()], [empty] the empty string. *)
Definition mandate_line (label : jsstring) (m : json) (k : jsstring)
  : result jsstring :=
  rbind (get (Some m) k) (fun v =>
  rbind (text_or_empty v) (fun s =>
  Ok (JsString.trim (label ++ s)))).

(** Line 29. *)
Definition constraints_line (m : json) : result jsstring :=
  rbind (get (Some m) (lit "constraints")) (fun c =>
  rbind (call_join (truthy_or c (JArr [])) (lit "; ")) (fun s =>
  Ok (JsString.trim (lit "Constraint(s): " ++ s)))).

(** Line 30. *)
Definition timebox_line (m : json) : result jsstring :=
  rbind (get (Some m) (lit "timebox_hours")) (fun h =>
  rbind (ToString (nullish_or h (JNum eight))) (fun s =>
  Ok (JsString.trim (lit "Timebox: " ++ s ++ lit " hours")))).

(** [Boolean(s)] on a string. *)
Definition nonempty (s : jsstring) : bool :=
  match s with [] => false | _ => true end.

(** Lines 25-32. *)
Definition mandate_lines (j : json) : result (list jsstring) :=
  rbind (get (Some j) (lit "mandate")) (fun mv =>
  let m := truthy_or mv (JObj []) in
  rbind (mandate_line (lit "Compose: ") m (lit "medium")) (fun l1 =>
  rbind (mandate_line (lit "Emotional axis: ") m (lit "emotional_axis")) (fun l2 =>
  rbind (constraints_line m) (fun l3 =>
  rbind (timebox_line m) (fun l4 =>
  rbind (mandate_line (lit "Deliverable: ") m (lit "deliverable")) (fun l5 =>
  Ok (filter nonempty [l1; l2; l3; l4; l5]))))))).

(** Line 33. *)
Definition render_mandate (j : json) : M unit :=
  lines <- lift (mandate_lines j) ;;
  textContent mandate (JsString.join [newline] lines).

(** The condition of line 35; [&&] reads the url only when the status
    is ["DONE"]. *)
Definition artifact_done (j : json) : result bool :=
  rbind (field_of j (lit "artifact") (lit "status")) (fun st =>
  if strict_eq_str st (lit "DONE")
  then rbind (field_of j (lit "artifact") (lit "url")) (fun u => Ok (truthy u))
  else Ok false).

(** The markup of line 36 around the text [url]. *)
Definition done_markup (url : jsstring) : jsstring :=
  lit "DONE " ++ [JsString.em_dash] ++ lit " <a href="
    ++ [JsString.dquote] ++ url ++ [JsString.dquote] ++ lit ">Open</a>".

(** Lines 35-39. *)
Definition render_artifact (j : json) : M unit :=
  done <- lift (artifact_done j) ;;
  if (done : bool) then
    u <- lift (field_of_strict j (lit "artifact") (lit "url")) ;;
    url <- lift (ToStringV u) ;;
    innerHTML artifact (done_markup url)
  else textContent artifact (lit "PENDING").

(** Line 41. *)
Definition render_build (j : json) : M unit :=
  version <- lift (field_of j (lit "engine") (lit "version")) ;;
  if truthy version then
    v <- lift (field_of_strict j (lit "engine") (lit "version")) ;;
    s <- lift (ToStringV v) ;;
    textContent build (lit "ENGINE v" ++ s)
  else ret tt.

(** Lines 15-41, after the document is parsed. *)
Definition render (j : json) : M unit :=
  textContent status [] ;;;
  render_day j ;;;
  render_diagnosis j ;;;
  render_agon j ;;;
  render_mandate j ;;;
  render_artifact j ;;;
  render_build j.

(** The [try] block, lines 11-41. *)
Definition load (net : network) : M unit :=
  j <- @fetch_json Num region net ;;
  render j.

Definition unavailable : jsstring := lit "Report unavailable right now.".

(** The [catch] block, lines 43-48. *)
Definition on_error (e : exn) : M unit :=
  textContent status unavailable ;;;
  textContent diagnosis [] ;;;
  textContent agon [] ;;;
  textContent mandate [] ;;;
  textContent artifact [] ;;;
  console_error e.

(** The whole function: what the page becomes and how the function
    completes, for each outcome of the request. *)
Definition ReportView (net : network) : M unit :=
  try_catch (load net) on_error.

End ReportView.
End App.

(* ================================================================== *)
(** ** [archive.js]: the archive view *)
(* ================================================================== *)

Module Archive.

(** The one element of line 2, the element of id [list]. *)
Inductive region : Type := list_el.

Definition region_eqb (a b : region) : bool := true.

Section ArchiveView.
Context {Num : JsNumber}.
Open Scope js_scope.

Definition page := Page.page region.
Definition M := Page.M region.
Definition textContent := @set_textContent region region_eqb.
Definition innerHTML := @set_innerHTML region region_eqb.

(** [v.slice(i, j)]: strings and arrays have the method. *)
Definition call_slice (i j : nat) (v : json) : result json :=
  match v with
  | JStr s => Ok (JStr (JsString.slice i j s))
  | JArr elems => Ok (JArr (JsString.slice i j elems))
  | _ => Throw TypeError
  end.

(** [v.slice()]: a copy. *)
Definition call_slice_all (v : json) : result json :=
  match v with
  | JStr _ | JArr _ => Ok v
  | _ => Throw TypeError
  end.

Fixpoint map_result {A B : Type} (f : A -> result B) (l : list A)
  : result (list B) :=
  match l with
  | [] => Ok []
  | x :: rest =>
      rbind (f x) (fun y => rbind (map_result f rest) (fun ys => Ok (y :: ys)))
  end.

(** The default comparison of [sort()] orders the elements by the code
    units of their string conversions, and the sort is stable: an
    element is put in front of the first one that is not smaller. *)
Fixpoint insert (x : jsstring * json) (l : list (jsstring * json))
  : list (jsstring * json) :=
  match l with
  | [] => [x]
  | y :: rest =>
      if JsString.ltb (fst y) (fst x) then y :: insert x rest else x :: l
  end.

Definition sort_by_key (l : list (jsstring * json)) : list (jsstring * json) :=
  fold_right insert [] l.

(** [v.sort()]: only arrays have the method; an array of fewer than two
    elements is not compared at all, any other has every element
    converted to a string. *)
Definition call_sort (v : json) : result (list json) :=
  match v with
  | JArr elems =>
      match elems with
      | [] | [_] => Ok elems
      | _ => rbind (map_result ToString elems) (fun keys =>
             Ok (map snd (sort_by_key (combine keys elems))))
      end
  | _ => Throw TypeError
  end.

(** Line 9. *)
Definition sorted_dates (j : json) : result (list json) :=
  rbind (get (Some j) (lit "dates")) (fun v =>
  rbind (call_slice_all (truthy_or v (JArr []))) (fun copy =>
  rbind (call_sort copy) (fun sorted =>
  Ok (rev sorted)))).

(** Line 11. *)
Definition href (d : json) : result jsstring :=
  rbind (call_slice 0 4 d) (fun y =>
  rbind (ToString y) (fun year =>
  rbind (call_slice 5 7 d) (fun m =>
  rbind (ToString m) (fun month =>
  rbind (ToString d) (fun stem =>
  Ok (lit "reports/" ++ year ++ lit "/" ++ month ++ lit "/" ++ stem
        ++ lit ".json")))))).

(** The markup of line 12 around the texts [target] and [label]. *)
Definition entry_markup (target label : jsstring) : jsstring :=
  lit "<div><a href=" ++ [JsString.dquote] ++ target ++ [JsString.dquote]
    ++ lit ">" ++ label ++ lit "</a></div>".

(** Lines 10-13, the callback of [map]. *)
Definition entry (d : json) : result jsstring :=
  rbind (href d) (fun target =>
  rbind (ToString d) (fun label =>
  Ok (entry_markup target label))).

(** Lines 9-13. *)
Definition render (j : json) : M unit :=
  dates <- lift (sorted_dates j) ;;
  entries <- lift (map_result entry dates) ;;
  innerHTML list_el (JsString.join [] entries).

(** The [try] block, lines 4-13. *)
Definition load (net : network) : M unit :=
  j <- @fetch_json Num region net ;;
  render j.

Definition unavailable : jsstring := lit "Archive unavailable.".

(** The [catch] block, lines 15-16. *)
Definition on_error (e : exn) : M unit :=
  textContent list_el unavailable ;;;
  console_error e.

Definition ArchiveView (net : network) : M unit :=
  try_catch (load net) on_error.

End ArchiveView.
End Archive.

(* ================================================================== *)
(** ** The documents the views are written for *)
(* ================================================================== *)

Module Schema.
Section Schema.
Context {Num : JsNumber}.

Definition is_text (x : json) : bool :=
  match x with JStr _ => true | _ => false end.

Definition is_number (x : json) : bool :=
  match x with JNum _ => true | _ => false end.

Definition is_scalar (x : json) : bool := is_text x || is_number x.

Definition is_texts (x : json) : bool :=
  match x with JArr elems => forallb is_text elems | _ => false end.

(** A field is present when it is neither missing nor [null]. *)
Definition present (v : value) : bool :=
  match v with None | Some JNull => false | Some _ => true end.

Definition optional (shape : json -> bool) (v : value) : bool :=
  match v with None | Some JNull => true | Some x => shape x end.

Definition object_of (shape : list (jsstring * json) -> bool) (x : json) : bool :=
  match x with JObj props => shape props | _ => false end.

Definition field (props : list (jsstring * json)) (k : string)
  (shape : json -> bool) : bool :=
  optional shape (assoc (lit k) props).

(** Modelled from the spec: the ReportDocument shape of the data model
    (section 3), for which [app.js] declares no type. Every field is
    optional. [day_number] is an integer-like value (a number, or its
    text), [date] and [diagnosis] are free text; [agon] is an object
    with the texts [summary] and [winner]; [mandate] is an object with
    the texts [medium], [emotional_axis] and [deliverable], the sequence
    of texts [constraints] and the number [timebox_hours]; [artifact] is
    an object with the texts [status] and [url]; [engine] is an object
    with the text [version]. Other properties are not constrained. *)
Definition Agon : json -> bool :=
  object_of (fun a => field a "summary" is_text && field a "winner" is_text).

Definition Mandate : json -> bool :=
  object_of (fun m =>
    field m "medium" is_text && field m "emotional_axis" is_text
    && field m "constraints" is_texts && field m "timebox_hours" is_number
    && field m "deliverable" is_text).

Definition Artifact : json -> bool :=
  object_of (fun a => field a "status" is_text && field a "url" is_text).

Definition Engine : json -> bool :=
  object_of (fun e => field e "version" is_text).

Definition ReportDocument : json -> bool :=
  object_of (fun j =>
    field j "day_number" is_scalar && field j "date" is_text
    && field j "diagnosis" is_text && field j "agon" Agon
    && field j "mandate" Mandate && field j "artifact" Artifact
    && field j "engine" Engine).

(** Modelled from the spec: the ArchiveIndex shape of the data model
    (section 3), for which [archive.js] declares no type: an object
    whose optional [dates] is a sequence of date strings. The format of
    the strings is left open, the view does not depend on it. *)
Definition ArchiveIndex : json -> bool :=
  object_of (fun j => field j "dates" is_texts).

(** The text a field of a document stands for: its string, the decimal
    text of its number, nothing when it is absent. *)
Definition text_of (v : value) : jsstring :=
  match v with
  | Some (JStr s) => s
  | Some (JNum n) => NumberToString n
  | _ => []
  end.

Definition texts_of (v : value) : list jsstring :=
  match v with
  | Some (JArr elems) => map (fun x => text_of (Some x)) elems
  | _ => []
  end.

(** A text field that is present and is not the empty text. *)
Definition filled (v : value) : bool :=
  match v with Some (JStr (_ :: _)) => true | _ => false end.

(** [j.a?.k] on a document given by its properties. *)
Definition sub (props : list (jsstring * json)) (a k : string) : value :=
  opt_get (assoc (lit a) props) (lit k).

(** The three ways a load fails before any rendering: no response, a
    status outside 200-299, a body that is not JSON. *)
Definition load_fails (net : network) : bool :=
  match net with
  | Unreachable => true
  | Response st Malformed => true
  | Response st (Parsed _) => negb (ok st)
  end.

End Schema.

(** Object and string literals, for writing sample documents. *)
Definition obj {Num : JsNumber} (l : list (string * json)) : json :=
  JObj (map (fun kv => (lit (fst kv), snd kv)) l).

Definition str {Num : JsNumber} (s : string) : json := JStr (lit s).

End Schema.
Import Schema.

(* ================================================================== *)
(** ** What the description says each region shows *)
(* ================================================================== *)

Module Spec.
Section Spec.
Context {Num : JsNumber}.

Definition zero : JsString.code_unit := 48%N.
Definition dash : jsstring := lit " " ++ [JsString.em_dash] ++ lit " ".

(** The day label, read with an absent day number contributing the
    empty string in place of the padded number. *)
Definition day_label_unpadded_when_absent (day_number date : value) : jsstring :=
  lit "DAY "
    ++ (if present day_number
        then JsString.padStart 3 zero (text_of day_number) else [])
    ++ dash ++ (if present date then text_of date else []).

(** The day label, read with the padding applied to the text of the
    day number, which is the empty text when the number is absent. *)
Definition day_label (day_number date : value) : jsstring :=
  lit "DAY " ++ JsString.padStart 3 zero (text_of day_number)
    ++ dash ++ text_of date.

(** The agon text, each part contributed when [has] holds of its field. *)
Definition agon_text (has : value -> bool) (summary winner : value) : jsstring :=
  JsString.trim
    ((if has summary then text_of summary ++ [App.newline; App.newline] else [])
     ++ (if has winner then lit "Winner: " ++ text_of winner else [])).

(** The five mandate lines before trimming, in their order; [m] is the
    mandate object or is absent. *)
Definition mandate_raw_lines (m : value) : list jsstring :=
  [ lit "Compose: " ++ text_of (opt_get m (lit "medium"));
    lit "Emotional axis: " ++ text_of (opt_get m (lit "emotional_axis"));
    lit "Constraint(s): "
      ++ JsString.join (lit "; ") (texts_of (opt_get m (lit "constraints")));
    lit "Timebox: "
      ++ (if present (opt_get m (lit "timebox_hours"))
          then text_of (opt_get m (lit "timebox_hours")) else lit "8")
      ++ lit " hours";
    lit "Deliverable: " ++ text_of (opt_get m (lit "deliverable")) ].

(** The mandate block: each line trimmed, the empty ones dropped, the
    rest joined by newlines. *)
Definition mandate_block (m : value) : jsstring :=
  JsString.join [App.newline]
    (filter App.nonempty (map JsString.trim (mandate_raw_lines m))).

(** The artifact region, with the link shown when the status is exactly
    ["DONE"] and [has] holds of the url. *)
Definition artifact_shown (has : value -> bool) (status url : value) : content :=
  if strict_eq_str status (lit "DONE") && has url
  then Html (App.done_markup (text_of url))
  else Text (lit "PENDING").

(** The build label, written when [has] holds of the version and left
    as it was otherwise. *)
Definition build_shown (has : value -> bool) (version : value)
  (prior : content) : content :=
  if has version then Text (lit "ENGINE v" ++ text_of version) else prior.

(** The link of one archive entry. *)
Definition archive_target (d : jsstring) : jsstring :=
  lit "reports/" ++ JsString.slice 0 4 d ++ lit "/" ++ JsString.slice 5 7 d
    ++ lit "/" ++ d ++ lit ".json".

Definition archive_link (d : jsstring) : jsstring :=
  Archive.entry_markup (archive_target d) d.

Definition archive_list (dates : list jsstring) : content :=
  Html (List.concat (map archive_link dates)).

(** Ascending code-unit order of a sequence of strings. *)
Definition ascending (l : list jsstring) : Prop :=
  Sorted (fun a b => JsString.leb a b = true) l.

(** The same order on elements paired with their sort keys. *)
Definition by_key (a b : jsstring * json) : Prop :=
  JsString.leb (fst a) (fst b) = true.

(** An element paired with its key is the string that the key is. *)
Definition keyed (kv : jsstring * json) : Prop := snd kv = JStr (fst kv).

(** The elements of an optional sequence. *)
Definition elems_of (v : value) : list json :=
  match v with Some (JArr elems) => elems | _ => [] end.

End Spec.
End Spec.

(* ================================================================== *)
(** ** Sample pages and documents *)
(* ================================================================== *)

Module Sample.
Open Scope string_scope.

(** A page whose regions all hold an earlier text. *)
Definition previous : App.page :=
  {| dom := fun _ => Text (lit "previous"); console := [] |}.

Definition previous_archive : Archive.page :=
  {| dom := fun _ => Text (lit "previous"); console := [] |}.

Definition no_fields : json := obj [].

Definition day_three : json :=
  obj [("day_number", JNum 3%Z); ("date", str "2026-02-08")].

Definition two_constraints : json :=
  obj [("mandate",
        obj [("constraints", JArr [str "no dialogue"; str "single shot"])])].

Definition done_with_url : json :=
  obj [("artifact", obj [("status", str "DONE"); ("url", str "x.html")])].

Definition done_with_empty_url : json :=
  obj [("artifact", obj [("status", str "DONE"); ("url", JStr [])])].

Definition pending : json :=
  obj [("artifact", obj [("status", str "PENDING")])].

Definition summary_and_empty_winner : json :=
  obj [("agon", obj [("summary", str "Close call"); ("winner", JStr [])])].

Definition empty_version : json :=
  obj [("engine", obj [("version", JStr [])])].

Definition version_one : json :=
  obj [("engine", obj [("version", str "1.4")])].

(** A document whose [mandate.constraints] is one string where a
    sequence is expected. *)
Definition constraints_as_text : json :=
  obj [("day_number", JNum 3%Z); ("date", str "2026-02-08");
       ("mandate", obj [("constraints", str "no dialogue")])].

Definition two_dates : json :=
  obj [("dates", JArr [str "2026-02-08"; str "2026-01-01"])].

Definition no_dates : json := obj [].

End Sample.

(* ================================================================== *)
(** ** The pages a load of the report view can leave *)
(* ================================================================== *)

Section Outcomes.
Context {Num : JsNumber}.
Import App.

(** The page the handler leaves, from the page [p] on which the [try]
    block stopped. *)
Definition cleared (e : exn) (p : App.page) : App.page :=
  logged e
    (put region_eqb artifact (Text [])
      (put region_eqb mandate (Text [])
        (put region_eqb agon (Text [])
          (put region_eqb diagnosis (Text [])
            (put region_eqb status (Text unavailable) p))))).

(** The page lines 15-39 leave for a document of the expected shape,
    given by its properties. *)
Definition rendered_regions (props : list (jsstring * json)) (p : App.page)
  : App.page :=
  put region_eqb artifact
    (Spec.artifact_shown filled (sub props "artifact" "status")
       (sub props "artifact" "url"))
    (put region_eqb mandate
       (Text (Spec.mandate_block (assoc (lit "mandate") props)))
       (put region_eqb agon
          (Text (Spec.agon_text filled (sub props "agon" "summary")
                   (sub props "agon" "winner")))
          (put region_eqb diagnosis
             (Text (text_of (assoc (lit "diagnosis") props)))
             (put region_eqb day
                (Text (Spec.day_label (assoc (lit "day_number") props)
                         (assoc (lit "date") props)))
                (put region_eqb status (Text []) p))))).

(** The page after line 41 as well. *)
Definition rendered (props : list (jsstring * json)) (p : App.page)
  : App.page :=
  if filled (sub props "engine" "version")
  then put region_eqb build
         (Text (lit "ENGINE v" ++ text_of (sub props "engine" "version")))
         (rendered_regions props p)
  else rendered_regions props p.

(** A statement that leaves the region [r] as it found it, whether it
    completes or throws. *)
Definition keeps {A : Type} (r : region) (m : M A) : Prop :=
  forall p : App.page, dom (fst (m p)) r = dom p r.

(** Line 41 wrote the label [c] for the document [j]: [j.engine?.version]
    is truthy and [c] is ["ENGINE v"] followed by its string conversion. *)
Definition build_written (j : json) (c : content) : Prop :=
  exists (v : value) (s : jsstring),
    field_of j (lit "engine") (lit "version") = Ok v
    /\ truthy v = true
    /\ ToStringV v = Ok s
    /\ c = Text (lit "ENGINE v" ++ s).

(** What a statement may do to the build label: nothing when it throws,
    nothing or the write of line 41 when it completes. *)
Definition build_outcome (j : json) (m : M unit) : Prop :=
  forall (p q : App.page) (res : result unit),
    m p = (q, res) ->
    match res with
    | Throw _ => dom q build = dom p build
    | Ok _ => dom q build = dom p build \/ build_written j (dom q build)
    end.

End Outcomes.

(* ================================================================== *)
(** ** The requests *)
(* ================================================================== *)

Module Request.

(** The arguments of [fetch]: the resource and the [cache] option. *)
Record request : Type := {
  url : jsstring;
  cache : jsstring
}.

(** Line 11 of [app.js]. [now] is [Date.now()], a whole number of
    milliseconds that the engine prints in plain decimal. *)
Definition report_request (now : N) : request :=
  {| url := lit "reports/latest.json?bust=" ++ JsString.of_N now;
     cache := lit "no-store" |}.

(** Line 4 of [archive.js]. *)
Definition archive_request (now : N) : request :=
  {| url := lit "reports/index.json?bust=" ++ JsString.of_N now;
     cache := lit "no-store" |}.

End Request.

(* ================================================================== *)
(** ** How a statement of the report view uses the page *)
(* ================================================================== *)

Section PageUse.
Context {Num : JsNumber}.
Import App.

(** A statement whose completion does not depend on the page. *)
Definition blind {A : Type} (m : M A) : Prop :=
  forall p p' : App.page, snd (m p) = snd (m p').

(** A statement that, when it completes, leaves in the region [r] a
    content that does not depend on the page it started from. *)
Definition sets {A : Type} (r : region) (m : M A) : Prop :=
  forall (p p' : App.page) (a : A),
    snd (m p) = Ok a -> dom (fst (m p)) r = dom (fst (m p')) r.

(** A statement that logs nothing. *)
Definition quiet {A : Type} (m : M A) : Prop :=
  forall p : App.page, console (fst (m p)) = console p.

(** A statement that throws on every page. *)
Definition throws {A : Type} (m : M A) : Prop :=
  forall p : App.page, exists (q : App.page) (e : exn), m p = (q, Throw e).

(** The regions the handler assigns, with the status region. *)
Definition refreshed (r : region) : bool :=
  match r with
  | status | diagnosis | agon | mandate | artifact => true
  | day | build => false
  end.

(** A parsed value that is neither [null] nor an object: a boolean, a
    number, a string or an array. *)
Definition plain (j : json) : bool :=
  match j with
  | JNull | JObj _ => false
  | _ => true
  end.

Definition is_array (j : json) : bool :=
  match j with JArr _ => true | _ => false end.

(** An element of [dates] on which line 11 can call [slice]. *)
Definition sliceable (j : json) : bool :=
  match j with JStr _ | JArr _ => true | _ => false end.

End PageUse.

(* ================================================================== *)
(** ** What the browser makes of an [innerHTML] assignment *)
(* ================================================================== *)

Module Html.

(** The children an element can get from the two scripts: text, and
    elements with their attributes and children. An anchor's target is
    the value of its [href] attribute, its label is its text. *)
Inductive node : Type :=
| TextNode (data : jsstring)
| Element (tag : jsstring) (attrs : list (jsstring * jsstring))
    (children : list node).

Inductive token : Type :=
| Chars (data : jsstring)
| StartTag (tag : jsstring) (attrs : list (jsstring * jsstring))
| EndTag (tag : jsstring).

(** The states of the HTML tokenizer that markup made of text, start
    tags with double-quoted attributes and end tags goes through, each
    with what it has collected so far. *)
Inductive state : Type :=
| Data (text : jsstring)
| TagOpen
| EndTagOpen
| TagName (tag : jsstring)
| EndTagName (tag : jsstring)
| BeforeAttributeName (tag : jsstring) (attrs : list (jsstring * jsstring))
| AttributeName (tag : jsstring) (attrs : list (jsstring * jsstring))
    (name : jsstring)
| BeforeAttributeValue (tag : jsstring) (attrs : list (jsstring * jsstring))
    (name : jsstring)
| AttributeValue (tag : jsstring) (attrs : list (jsstring * jsstring))
    (name value : jsstring)
| AfterAttributeValue (tag : jsstring) (attrs : list (jsstring * jsstring)).

Definition lower_alpha (c : JsString.code_unit) : bool :=
  ((97 <=? c) && (c <=? 122))%N.

Definition digit (c : JsString.code_unit) : bool :=
  ((48 <=? c) && (c <=? 57))%N.

(** TAB, LF, FF and SPACE, the white space between attributes. *)
Definition tag_space (c : JsString.code_unit) : bool :=
  ((c =? 9) || (c =? 10) || (c =? 12) || (c =? 32))%N.

(** Units that are text in the data state: not [<], not [&] (a
    character reference), not NUL and not CR (both rewritten by the
    parser). *)
Definition text_unit (c : JsString.code_unit) : bool :=
  negb ((c =? 60) || (c =? 38) || (c =? 0) || (c =? 13))%N.

(** Units that are part of a double-quoted attribute value: not the
    quote, not [&], not NUL and not CR. *)
Definition value_unit (c : JsString.code_unit) : bool :=
  negb ((c =? 34) || (c =? 38) || (c =? 0) || (c =? 13))%N.

(** A string that markup gives no meaning to, as text and as an
    attribute value. *)
Definition markup_free (s : jsstring) : bool :=
  forallb (fun c => text_unit c && value_unit c) s.

Definition has_attr (name : jsstring) (attrs : list (jsstring * jsstring))
  : bool :=
  existsb (fun kv => JsString.eqb (fst kv) name) attrs.

(** The pending text becomes a character token, unless there is none. *)
Definition emit_text (text : jsstring) : list token :=
  match text with
  | [] => []
  | _ => [Chars text]
  end.

(** What the tokenizer does with one unit in a state: the tokens it
    emits and the state it moves to. [None] is markup outside the part
    modelled: character references, upper-case or unusual names,
    attributes without a double-quoted value or given twice,
    self-closing tags, comments. *)
Definition step (st : state) (c : JsString.code_unit)
  : option (list token * state) :=
  match st with
  | Data text =>
      if (c =? 60)%N then Some (emit_text text, TagOpen)
      else if text_unit c then Some ([], Data (text ++ [c]))
      else None
  | TagOpen =>
      if (c =? 47)%N then Some ([], EndTagOpen)
      else if lower_alpha c then Some ([], TagName [c])
      else None
  | EndTagOpen =>
      if lower_alpha c then Some ([], EndTagName [c]) else None
  | TagName tag =>
      if (c =? 62)%N then Some ([StartTag tag []], Data [])
      else if tag_space c then Some ([], BeforeAttributeName tag [])
      else if lower_alpha c || digit c then Some ([], TagName (tag ++ [c]))
      else None
  | EndTagName tag =>
      if (c =? 62)%N then Some ([EndTag tag], Data [])
      else if lower_alpha c || digit c then Some ([], EndTagName (tag ++ [c]))
      else None
  | BeforeAttributeName tag attrs =>
      if (c =? 62)%N then Some ([StartTag tag attrs], Data [])
      else if tag_space c then Some ([], BeforeAttributeName tag attrs)
      else if lower_alpha c then Some ([], AttributeName tag attrs [c])
      else None
  | AttributeName tag attrs name =>
      if (c =? 61)%N
      then if has_attr name attrs then None
           else Some ([], BeforeAttributeValue tag attrs name)
      else if lower_alpha c || digit c || (c =? 45)%N
      then Some ([], AttributeName tag attrs (name ++ [c]))
      else None
  | BeforeAttributeValue tag attrs name =>
      if (c =? 34)%N then Some ([], AttributeValue tag attrs name [])
      else None
  | AttributeValue tag attrs name value =>
      if (c =? 34)%N
      then Some ([], AfterAttributeValue tag (attrs ++ [(name, value)]))
      else if value_unit c
      then Some ([], AttributeValue tag attrs name (value ++ [c]))
      else None
  | AfterAttributeValue tag attrs =>
      if (c =? 62)%N then Some ([StartTag tag attrs], Data [])
      else if tag_space c then Some ([], BeforeAttributeName tag attrs)
      else None
  end.

(** The tokens of a string, one unit per step as in the HTML standard.
    Markup that ends inside a tag is not modelled either. *)
Fixpoint tokenize (st : state) (s : jsstring) : option (list token) :=
  match s with
  | [] =>
      match st with
      | Data text => Some (emit_text text)
      | _ => None
      end
  | c :: rest =>
      match step st c with
      | Some (emitted, st') => option_map (app emitted) (tokenize st' rest)
      | None => None
      end
  end.

(** The steps over the first part of a string. *)
Fixpoint run (st : state) (s : jsstring) : option (list token * state) :=
  match s with
  | [] => Some ([], st)
  | c :: rest =>
      match step st c with
      | Some (emitted, st') =>
          match run st' rest with
          | Some (more, st'') => Some (emitted ++ more, st'')
          | None => None
          end
      | None => None
      end
  end.

(** An element that is open: its tag and attributes, and the children
    its parent had before it. *)
Definition frame : Type :=
  (jsstring * list (jsstring * jsstring) * list node)%type.

Definition is_open (tag : jsstring) (stack : list frame) : bool :=
  existsb (fun f => JsString.eqb (fst (fst f)) tag) stack.

(** The start tags taken: [div], and [a] when no anchor is open (an
    anchor inside an anchor makes the parser rearrange the tree). *)
Definition may_open (tag : jsstring) (stack : list frame) : bool :=
  JsString.eqb tag (lit "div")
  || (JsString.eqb tag (lit "a") && negb (is_open (lit "a") stack)).

(** Tree construction in the body of a fragment, for tags that are
    properly nested: [current] is the list of children of the innermost
    open element, or of the element assigned to when none is open.
    [None] is any other tag, an end tag that does not close the
    innermost open element, and markup that ends with an element open. *)
Fixpoint build (tokens : list token) (stack : list frame) (current : list node)
  : option (list node) :=
  match tokens with
  | [] => match stack with [] => Some current | _ => None end
  | Chars data :: rest => build rest stack (current ++ [TextNode data])
  | StartTag tag attrs :: rest =>
      if may_open tag stack
      then build rest ((tag, attrs, current) :: stack) []
      else None
  | EndTag tag :: rest =>
      match stack with
      | (tag', attrs, before) :: stack' =>
          if JsString.eqb tag tag'
          then build rest stack' (before ++ [Element tag' attrs current])
          else None
      | [] => None
      end
  end.

(** The children that [el.innerHTML = markup] gives [el], an element
    of the page body that holds flow content (the host page's [div],
    [p], [span] and the like). *)
Definition parse (markup : jsstring) : option (list node) :=
  match tokenize (Data []) markup with
  | Some tokens => build tokens [] []
  | None => None
  end.

(** The children of an element after an assignment: [textContent]
    leaves one text node, or none for the empty string. *)
Definition nodes_of (c : content) : option (list node) :=
  match c with
  | Text [] => Some []
  | Text s => Some [TextNode s]
  | Html markup => parse markup
  end.

(** A link: an anchor with only an [href], and a text for label. *)
Definition link (target label : jsstring) : node :=
  Element (lit "a") [(lit "href", target)] [TextNode label].

End Html.

(* ================================================================== *)
(** ** Dates and further sample documents *)
(* ================================================================== *)

Section Dates.
Context {Num : JsNumber}.

(** Modelled from the spec: the ISO format [YYYY-MM-DD] of the date
    strings of an archive index (section 3): four digits, a hyphen,
    two digits, a hyphen, two digits. *)
Definition iso_date (d : jsstring) : bool :=
  match d with
  | [y1; y2; y3; y4; h1; m1; m2; h2; d1; d2] =>
      Html.digit y1 && Html.digit y2 && Html.digit y3 && Html.digit y4
      && (h1 =? 45)%N && Html.digit m1 && Html.digit m2 && (h2 =? 45)%N
      && Html.digit d1 && Html.digit d2
  | _ => false
  end.

Definition is_iso_dates (x : json) : bool :=
  match x with
  | JArr elems =>
      forallb (fun e => match e with JStr s => iso_date s | _ => false end) elems
  | _ => false
  end.

(** Modelled from the spec: an ArchiveIndex whose optional [dates] is a
    sequence of ISO-formatted date strings, as section 3 has it. *)
Definition DatedIndex : json -> bool :=
  object_of (fun j => field j "dates" is_iso_dates).

End Dates.

Module Hostile.

(** The url made of [x], a double quote, [ id=], a double quote and
    [y]: free text that holds double quotes. *)
Definition quoted_url : jsstring :=
  lit "x" ++ [JsString.dquote] ++ lit " id=" ++ [JsString.dquote] ++ lit "y".

Open Scope string_scope.

Definition done_with_quoted_url : json :=
  obj [("artifact", obj [("status", str "DONE"); ("url", JStr quoted_url)])].

(** A mandate with a medium and nothing else. *)
Definition medium_only : json :=
  obj [("mandate", obj [("medium", str "film")])].

End Hostile.

(* ================================================================== *)
(** ** The views with their requests *)
(* ================================================================== *)

Section Served.
Context {Num : JsNumber}.

(** The whole of each script: the request of its first line is made at
    the instant [now], and [serve] is what the network does with a
    request. *)
Definition ReportView_at (now : N) (serve : Request.request -> network)
  : App.M unit :=
  App.ReportView (serve (Request.report_request now)).

Definition ArchiveView_at (now : N) (serve : Request.request -> network)
  : Archive.M unit :=
  Archive.ArchiveView (serve (Request.archive_request now)).

(** A network with a cache in front of it: the cache holds the
    response [stored] under one URL and answers the requests for that
    URL with it; every other request gets [fresh]. *)
Definition cached (stored_url : jsstring) (stored fresh : network)
  : Request.request -> network :=
  fun r => if JsString.eqb (Request.url r) stored_url then stored else fresh.

End Served.

(* ================================================================== *)
(** * Properties *)
(* ================================================================== *)

Unset Implicit Arguments.

(** ** Strings *)

Lemma eqb_eq (a b : jsstring) : JsString.eqb a b = true <-> a = b.
Proof.
  unfold JsString.eqb.
  destruct (list_eq_dec N.eq_dec a b); split; congruence.
Qed.

Example lit_ascii : lit "DONE" = [68; 79; 78; 69]%N.
Proof. reflexivity. Qed.

Example padStart_short : JsString.padStart 3 48%N (lit "3") = lit "003".
Proof. reflexivity. Qed.

Example padStart_long : JsString.padStart 3 48%N (lit "2026") = lit "2026".
Proof. reflexivity. Qed.

Example padStart_empty : JsString.padStart 3 48%N [] = lit "000".
Proof. reflexivity. Qed.

Example slice_month : JsString.slice 5 7 (lit "2026-02-08") = lit "02".
Proof. reflexivity. Qed.

Example trim_both_ends :
  JsString.trim ([32; 10] ++ lit "a b" ++ [9; 160])%N = lit "a b".
Proof. reflexivity. Qed.

Example of_Z_negative : JsString.of_Z (-12) = lit "-12".
Proof. reflexivity. Qed.

(** ** The failure path of the report view *)

Section ReportFailure.
Context {Num : JsNumber}.
Import App.

Lemma on_error_cleared (e : exn) (p : App.page) :
  on_error e p = (cleared e p, Ok tt).
Proof. reflexivity. Qed.

(** A throw of the [try] block is caught: the view completes, on the
    page that the block left and the handler cleared. *)
Lemma caught (net : network) (p q : App.page) (e : exn) :
  load net p = (q, Throw e) -> ReportView net p = (cleared e q, Ok tt).
Proof.
  intros H. unfold ReportView, try_catch. rewrite H. apply on_error_cleared.
Qed.

Lemma failed_load_throws (net : network) (p : App.page) :
  load_fails net = true -> exists e, load net p = (p, Throw e).
Proof.
  unfold load, bind, fetch_json, load_fails.
  destruct net as [|st [|j]]; intros H.
  - now exists TypeError.
  - destruct (ok st); eexists; reflexivity.
  - destruct (ok st); [discriminate | eexists; reflexivity].
Qed.

(** C1. When the load fails (no response, a status outside 200-299, or
    a body that is not JSON) the view completes without an exception,
    the status region holds the fixed message, the diagnosis, agon,
    mandate and artifact regions hold the empty string, and the build
    label is what it was. *)
Theorem report_failure_path (net : network) (p : App.page) :
  load_fails net = true ->
  snd (ReportView net p) = Ok tt
  /\ dom (fst (ReportView net p)) status = Text (lit "Report unavailable right now.")
  /\ dom (fst (ReportView net p)) diagnosis = Text []
  /\ dom (fst (ReportView net p)) agon = Text []
  /\ dom (fst (ReportView net p)) mandate = Text []
  /\ dom (fst (ReportView net p)) artifact = Text []
  /\ dom (fst (ReportView net p)) build = dom p build.
Proof.
  intros H. destruct (failed_load_throws net p H) as [e He].
  rewrite (caught _ _ _ _ He). repeat split.
Qed.

(** The same load leaves the day label as it was and logs the error. *)
Lemma report_failure_frame (net : network) (p : App.page) :
  load_fails net = true ->
  dom (fst (ReportView net p)) day = dom p day
  /\ exists e, console (fst (ReportView net p)) = e :: console p.
Proof.
  intros H. destruct (failed_load_throws net p H) as [e He].
  rewrite (caught _ _ _ _ He). split; [reflexivity | now exists e].
Qed.

(** C10. A response whose body is the JSON value [null] is not rendered
    with defaults: reading its first field throws, the handler runs, so
    the status region holds the fixed message and the diagnosis, agon,
    mandate and artifact regions the empty string; the day and build
    labels keep what they had. *)
Theorem null_document_takes_failure_path (st : N) (p : App.page) :
  ok st = true ->
  snd (ReportView (Response st (Parsed JNull)) p) = Ok tt
  /\ dom (fst (ReportView (Response st (Parsed JNull)) p)) status
     = Text (lit "Report unavailable right now.")
  /\ dom (fst (ReportView (Response st (Parsed JNull)) p)) diagnosis = Text []
  /\ dom (fst (ReportView (Response st (Parsed JNull)) p)) agon = Text []
  /\ dom (fst (ReportView (Response st (Parsed JNull)) p)) mandate = Text []
  /\ dom (fst (ReportView (Response st (Parsed JNull)) p)) artifact = Text []
  /\ dom (fst (ReportView (Response st (Parsed JNull)) p)) day = dom p day
  /\ dom (fst (ReportView (Response st (Parsed JNull)) p)) build = dom p build
  /\ console (fst (ReportView (Response st (Parsed JNull)) p))
     = TypeError :: console p.
Proof.
  intros H.
  assert (E : load (Response st (Parsed JNull)) p
              = (put region_eqb status (Text []) p, Throw TypeError)).
  { unfold load, bind, fetch_json. rewrite H. reflexivity. }
  rewrite (caught _ _ _ _ E). repeat split.
Qed.

End ReportFailure.

Lemma report_failure_path_witness :
  load_fails (Response 500 Malformed) = true
  /\ dom (fst (App.ReportView (Response 500 Malformed) Sample.previous))
       App.status = Text (lit "Report unavailable right now.").
Proof.
  split; [reflexivity |].
  apply (report_failure_path (Response 500 Malformed) Sample.previous).
  reflexivity.
Defined.

Lemma null_document_takes_failure_path_witness :
  ok 200 = true
  /\ dom (fst (App.ReportView (Response 200 (Parsed JNull)) Sample.previous))
       App.status = Text (lit "Report unavailable right now.").
Proof.
  split; [reflexivity |].
  apply (null_document_takes_failure_path 200 Sample.previous).
  reflexivity.
Defined.

(** The handler has no assignment to the day label: after a throw the
    label is whatever the [try] block left there. *)
Lemma handler_keeps_day {Num : JsNumber} (net : network) (p q : App.page)
  (e : exn) :
  App.load net p = (q, Throw e) ->
  dom (fst (App.ReportView net p)) App.day = dom q App.day.
Proof. intros L. rewrite (caught net p q e L). reflexivity. Qed.

(** C6. A document that parses but whose [mandate.constraints] is a
    string makes line 29 throw after line 16 has written the day label.
    The handler runs and clears four regions, and the day label of the
    failed render stays on the page next to the failure message. *)
Theorem failed_render_keeps_day_label :
  let after :=
    App.ReportView (Response 200 (Parsed Sample.constraints_as_text))
      Sample.previous in
  snd after = Ok tt
  /\ console (fst after) = [TypeError]
  /\ dom (fst after) App.status = Text (lit "Report unavailable right now.")
  /\ dom (fst after) App.mandate = Text []
  /\ dom (fst after) App.day
     = Text (lit "DAY 003 " ++ [JsString.em_dash] ++ lit " 2026-02-08")
  /\ dom (fst after) App.day <> dom Sample.previous App.day.
Proof.
  vm_compute. repeat split. discriminate.
Qed.

(** ** Sequencing *)

Lemma rbind_ok {A B : Type} (r : result A) (a : A) (k : A -> result B) :
  r = Ok a -> rbind r k = k a.
Proof. intros ->. reflexivity. Qed.

(** ** Values of the expected shape *)

Section Shapes.
Context {Num : JsNumber}.

Lemma text_is_scalar (v : value) :
  optional is_text v = true -> optional is_scalar v = true.
Proof.
  destruct v as [[]|]; simpl; intros H; try discriminate; reflexivity.
Qed.

Lemma text_or_empty_scalar (v : value) :
  optional is_scalar v = true -> App.text_or_empty v = Ok (text_of v).
Proof.
  destruct v as [[]|]; simpl; intros H; try discriminate; reflexivity.
Qed.

Lemma truthy_text (v : value) :
  optional is_text v = true -> truthy v = filled v.
Proof.
  destruct v as [[| | |[]| |]|]; simpl; intros H; try discriminate; reflexivity.
Qed.

Lemma filled_text (v : value) :
  filled v = true -> ToStringV v = Ok (text_of v).
Proof.
  destruct v as [[| | |[]| |]|]; simpl; intros H; try discriminate; reflexivity.
Qed.

(** A truthy [o?.k] means that [o] is neither [null] nor [undefined], so
    the plain read [o.k] gives the same value. *)
Lemma get_of_truthy (o : value) (k : jsstring) :
  truthy (opt_get o k) = true -> get o k = Ok (opt_get o k).
Proof.
  destruct o as [[]|]; simpl; intros H; try discriminate; reflexivity.
Qed.

Lemma join_texts (sep : jsstring) (l : list json) :
  forallb is_text l = true ->
  join_elems ToString sep l
  = Ok (JsString.join sep (map (fun x => text_of (Some x)) l)).
Proof.
  induction l as [|x rest IH]; [reflexivity |].
  intros H. apply andb_prop in H. destruct H as [Hx Hrest].
  destruct x; try discriminate. simpl.
  destruct rest as [|y rest']; [reflexivity |].
  rewrite (IH Hrest). reflexivity.
Qed.

Lemma agon_fields (a : value) :
  optional Agon a = true ->
  optional is_text (opt_get a (lit "summary")) = true
  /\ optional is_text (opt_get a (lit "winner")) = true.
Proof.
  destruct a as [[]|]; simpl; intros H; try discriminate; try (now split).
  now apply andb_prop in H.
Qed.

Lemma artifact_fields (a : value) :
  optional Artifact a = true ->
  optional is_text (opt_get a (lit "status")) = true
  /\ optional is_text (opt_get a (lit "url")) = true.
Proof.
  destruct a as [[]|]; simpl; intros H; try discriminate; try (now split).
  now apply andb_prop in H.
Qed.

Lemma engine_fields (e : value) :
  optional Engine e = true ->
  optional is_text (opt_get e (lit "version")) = true.
Proof.
  destruct e as [[]|]; simpl; intros H; try discriminate; trivial.
Qed.

Lemma mandate_fields (m : value) :
  optional Mandate m = true ->
  optional is_text (opt_get m (lit "medium")) = true
  /\ optional is_text (opt_get m (lit "emotional_axis")) = true
  /\ optional is_texts (opt_get m (lit "constraints")) = true
  /\ optional is_number (opt_get m (lit "timebox_hours")) = true
  /\ optional is_text (opt_get m (lit "deliverable")) = true.
Proof.
  destruct m as [[]|]; simpl; intros H; try discriminate;
    try (repeat split; reflexivity).
  unfold field in H.
  repeat (apply andb_prop in H; destruct H as [H ?]).
  repeat split; assumption.
Qed.

(** [j.mandate || {}] reads like [j.mandate?.k]. *)
Lemma mandate_or_empty (m : value) (k : jsstring) :
  optional Mandate m = true ->
  get (Some (truthy_or m (JObj []))) k = Ok (opt_get m k).
Proof.
  destruct m as [[]|]; simpl; intros H; try discriminate; reflexivity.
Qed.

Lemma document_fields (props : list (jsstring * json)) :
  ReportDocument (JObj props) = true ->
  optional is_scalar (assoc (lit "day_number") props) = true
  /\ optional is_text (assoc (lit "date") props) = true
  /\ optional is_text (assoc (lit "diagnosis") props) = true
  /\ optional Agon (assoc (lit "agon") props) = true
  /\ optional Mandate (assoc (lit "mandate") props) = true
  /\ optional Artifact (assoc (lit "artifact") props) = true
  /\ optional Engine (assoc (lit "engine") props) = true.
Proof.
  unfold ReportDocument, object_of, field. intros H.
  repeat (apply andb_prop in H; destruct H as [H ?]).
  repeat split; assumption.
Qed.

End Shapes.

(** ** Rendering a document of the expected shape *)

Section ReportRender.
Context {Num : JsNumber}.
Import App.

Variable props : list (jsstring * json).
Hypothesis shaped : ReportDocument (JObj props) = true.

Lemma render_day_shaped (p : App.page) :
  render_day (JObj props) p
  = (put region_eqb day
       (Text (Spec.day_label (assoc (lit "day_number") props)
                (assoc (lit "date") props))) p, Ok tt).
Proof.
  destruct (document_fields props shaped) as (Hn & Hd & _).
  unfold render_day, bind, lift, get, prop.
  rewrite (text_or_empty_scalar _ Hn).
  rewrite (text_or_empty_scalar _ (text_is_scalar _ Hd)).
  reflexivity.
Qed.

Lemma render_diagnosis_shaped (p : App.page) :
  render_diagnosis (JObj props) p
  = (put region_eqb diagnosis
       (Text (text_of (assoc (lit "diagnosis") props))) p, Ok tt).
Proof.
  destruct (document_fields props shaped) as (_ & _ & Hd & _).
  unfold render_diagnosis, bind, lift, get, prop.
  rewrite (text_or_empty_scalar _ (text_is_scalar _ Hd)).
  reflexivity.
Qed.

Lemma field_of_object (a k : jsstring) :
  field_of (JObj props) a k = Ok (opt_get (assoc a props) k).
Proof. reflexivity. Qed.

Lemma field_of_strict_object (a k : jsstring) :
  field_of_strict (JObj props) a k = get (assoc a props) k.
Proof. reflexivity. Qed.

(** A part of the form [o?.k ? f(o.k) : empty] for a text field. *)
Lemma optional_part (o : value) (k : jsstring) (f : jsstring -> jsstring) :
  optional is_text (opt_get o k) = true ->
  (if truthy (opt_get o k)
   then rbind (get o k) (fun s => rbind (ToStringV s) (fun t => Ok (f t)))
   else Ok [])
  = Ok (if filled (opt_get o k) then f (text_of (opt_get o k)) else []).
Proof.
  intros H. rewrite (truthy_text _ H).
  destruct (filled (opt_get o k)) eqn:F; [| reflexivity].
  rewrite get_of_truthy by (now rewrite (truthy_text _ H)).
  simpl. rewrite (filled_text _ F). reflexivity.
Qed.

Lemma agonText_shaped :
  agonText (JObj props)
  = Ok ((if filled (sub props "agon" "summary")
         then text_of (sub props "agon" "summary") ++ [newline; newline]
         else [])
        ++ (if filled (sub props "agon" "winner")
            then lit "Winner: " ++ text_of (sub props "agon" "winner")
            else [])).
Proof.
  destruct (document_fields props shaped) as (_ & _ & _ & Ha & _).
  destruct (agon_fields _ Ha) as [Hs Hw].
  unfold agonText, sub. rewrite !field_of_object, !field_of_strict_object.
  cbn [rbind].
  erewrite rbind_ok
    by exact (optional_part _ _ (fun t => t ++ [newline; newline]) Hs).
  erewrite rbind_ok
    by exact (optional_part _ _ (fun t => lit "Winner: " ++ t) Hw).
  reflexivity.
Qed.

Lemma render_agon_shaped (p : App.page) :
  render_agon (JObj props) p
  = (put region_eqb agon
       (Text (Spec.agon_text filled (sub props "agon" "summary")
                (sub props "agon" "winner"))) p, Ok tt).
Proof.
  unfold render_agon, bind, lift. rewrite agonText_shaped. reflexivity.
Qed.

Lemma mandate_line_shaped (label : jsstring) (m : value) (k : jsstring) :
  optional Mandate m = true ->
  optional is_text (opt_get m k) = true ->
  mandate_line label (truthy_or m (JObj [])) k
  = Ok (JsString.trim (label ++ text_of (opt_get m k))).
Proof.
  intros Hm Hk. unfold mandate_line.
  erewrite rbind_ok by exact (mandate_or_empty m k Hm).
  erewrite rbind_ok by exact (text_or_empty_scalar _ (text_is_scalar _ Hk)).
  reflexivity.
Qed.

Lemma call_join_texts (c : value) (sep : jsstring) :
  optional is_texts c = true ->
  call_join (truthy_or c (JArr [])) sep = Ok (JsString.join sep (texts_of c)).
Proof.
  destruct c as [[]|]; simpl; intros H; try discriminate; try reflexivity.
  now apply join_texts.
Qed.

Lemma timebox_text (h : value) :
  optional is_number h = true ->
  ToString (nullish_or h (JNum eight))
  = Ok (if present h then text_of h else lit "8").
Proof.
  destruct h as [[]|]; simpl; intros H; try discriminate;
    try reflexivity; now rewrite eight_text.
Qed.

Lemma constraints_line_shaped (m : value) :
  optional Mandate m = true ->
  optional is_texts (opt_get m (lit "constraints")) = true ->
  constraints_line (truthy_or m (JObj []))
  = Ok (JsString.trim
          (lit "Constraint(s): "
           ++ JsString.join (lit "; ") (texts_of (opt_get m (lit "constraints"))))).
Proof.
  intros Hm Hc. unfold constraints_line.
  erewrite rbind_ok by exact (mandate_or_empty m _ Hm).
  erewrite rbind_ok by exact (call_join_texts _ _ Hc).
  reflexivity.
Qed.

Lemma timebox_line_shaped (m : value) :
  optional Mandate m = true ->
  optional is_number (opt_get m (lit "timebox_hours")) = true ->
  timebox_line (truthy_or m (JObj []))
  = Ok (JsString.trim
          (lit "Timebox: "
           ++ (if present (opt_get m (lit "timebox_hours"))
               then text_of (opt_get m (lit "timebox_hours")) else lit "8")
           ++ lit " hours")).
Proof.
  intros Hm Hh. unfold timebox_line.
  erewrite rbind_ok by exact (mandate_or_empty m _ Hm).
  erewrite rbind_ok by exact (timebox_text _ Hh).
  reflexivity.
Qed.

Lemma mandate_lines_shaped :
  mandate_lines (JObj props)
  = Ok (filter nonempty
          (map JsString.trim
             (Spec.mandate_raw_lines (assoc (lit "mandate") props)))).
Proof.
  destruct (document_fields props shaped) as (_ & _ & _ & _ & Hm & _).
  destruct (mandate_fields _ Hm) as (H1 & H2 & H3 & H4 & H5).
  unfold mandate_lines, get, prop. cbn [rbind].
  rewrite !mandate_line_shaped by assumption.
  rewrite (constraints_line_shaped _ Hm H3), (timebox_line_shaped _ Hm H4).
  reflexivity.
Qed.

Lemma render_mandate_shaped (p : App.page) :
  render_mandate (JObj props) p
  = (put region_eqb mandate
       (Text (Spec.mandate_block (assoc (lit "mandate") props))) p, Ok tt).
Proof.
  unfold render_mandate, bind, lift. rewrite mandate_lines_shaped. reflexivity.
Qed.

Lemma artifact_done_shaped :
  artifact_done (JObj props)
  = Ok (strict_eq_str (sub props "artifact" "status") (lit "DONE")
        && filled (sub props "artifact" "url")).
Proof.
  destruct (document_fields props shaped) as (_ & _ & _ & _ & _ & Ha & _).
  destruct (artifact_fields _ Ha) as [_ Hu].
  unfold artifact_done, sub. rewrite !field_of_object. cbn [rbind].
  rewrite (truthy_text _ Hu).
  now destruct (strict_eq_str _ _).
Qed.

Lemma render_artifact_shaped (p : App.page) :
  render_artifact (JObj props) p
  = (put region_eqb artifact
       (Spec.artifact_shown filled (sub props "artifact" "status")
          (sub props "artifact" "url")) p, Ok tt).
Proof.
  destruct (document_fields props shaped) as (_ & _ & _ & _ & _ & Ha & _).
  destruct (artifact_fields _ Ha) as [_ Hu].
  unfold render_artifact, bind, lift, Spec.artifact_shown.
  rewrite artifact_done_shaped.
  destruct (strict_eq_str _ _ && filled _) eqn:D; [| reflexivity].
  apply andb_prop in D. destruct D as [_ F].
  rewrite field_of_strict_object.
  unfold sub in F. rewrite get_of_truthy by (now rewrite (truthy_text _ Hu)).
  rewrite (filled_text _ F). reflexivity.
Qed.

Lemma render_build_shaped (p : App.page) :
  render_build (JObj props) p
  = (if filled (sub props "engine" "version")
     then put region_eqb build
            (Text (lit "ENGINE v" ++ text_of (sub props "engine" "version"))) p
     else p, Ok tt).
Proof.
  destruct (document_fields props shaped) as (_ & _ & _ & _ & _ & _ & He).
  pose proof (engine_fields _ He) as Hv.
  unfold render_build, bind, lift, sub.
  rewrite field_of_object, (truthy_text _ Hv).
  destruct (filled _) eqn:F; [| reflexivity].
  rewrite field_of_strict_object.
  rewrite get_of_truthy by (now rewrite (truthy_text _ Hv)).
  rewrite (filled_text _ F). reflexivity.
Qed.

(** Lines 15-41 complete on a document of the expected shape. *)
Lemma render_shaped (p : App.page) :
  render (JObj props) p = (rendered props p, Ok tt).
Proof.
  unfold render, rendered, rendered_regions.
  unfold bind at 1. cbn [textContent set_textContent write].
  unfold bind at 1. rewrite render_day_shaped.
  unfold bind at 1. rewrite render_diagnosis_shaped.
  unfold bind at 1. rewrite render_agon_shaped.
  unfold bind at 1. rewrite render_mandate_shaped.
  unfold bind at 1. rewrite render_artifact_shaped.
  rewrite render_build_shaped.
  now destruct (filled _).
Qed.

(** The whole view on a successful response carrying such a document. *)
Lemma ReportView_shaped (st : N) (p : App.page) :
  ok st = true ->
  ReportView (Response st (Parsed (JObj props))) p = (rendered props p, Ok tt).
Proof.
  intros H. unfold ReportView, try_catch, load, bind, fetch_json.
  rewrite H. cbn [ret]. rewrite render_shaped. reflexivity.
Qed.

End ReportRender.

(** ** What a rendered document shows *)

Section ReportShown.
Context {Num : JsNumber}.
Import App.

Variable props : list (jsstring * json).

Lemma rendered_status (p : App.page) :
  dom (rendered props p) status = Text [].
Proof. unfold rendered. now destruct (filled _). Qed.

Lemma rendered_day (p : App.page) :
  dom (rendered props p) day
  = Text (Spec.day_label (assoc (lit "day_number") props)
            (assoc (lit "date") props)).
Proof. unfold rendered. now destruct (filled _). Qed.

Lemma rendered_agon (p : App.page) :
  dom (rendered props p) agon
  = Text (Spec.agon_text filled (sub props "agon" "summary")
            (sub props "agon" "winner")).
Proof. unfold rendered. now destruct (filled _). Qed.

Lemma rendered_mandate (p : App.page) :
  dom (rendered props p) mandate
  = Text (Spec.mandate_block (assoc (lit "mandate") props)).
Proof. unfold rendered. now destruct (filled _). Qed.

Lemma rendered_artifact (p : App.page) :
  dom (rendered props p) artifact
  = Spec.artifact_shown filled (sub props "artifact" "status")
      (sub props "artifact" "url").
Proof. unfold rendered. now destruct (filled _). Qed.

Lemma rendered_build (p : App.page) :
  dom (rendered props p) build
  = Spec.build_shown filled (sub props "engine" "version") (dom p build).
Proof. unfold rendered, Spec.build_shown. now destruct (filled _). Qed.

Lemma rendered_console (p : App.page) :
  console (rendered props p) = console p.
Proof. unfold rendered. now destruct (filled _). Qed.

End ReportShown.

(** C2. For a successful response carrying a report document, the day
    label is ["DAY "], then the text of the day number padded on the
    left with ["0"] to three units, then [" — "], then the date. The
    text of an absent day number is the empty string and is padded like
    any other, so it shows as ["000"]; an absent date shows as nothing.
    Day number 3 with date 2026-02-08 gives ["DAY 003 — 2026-02-08"]. *)
Theorem day_label_shown :
  (forall (Num : JsNumber) (st : N) (props : list (jsstring * json))
          (p : App.page),
      ok st = true ->
      ReportDocument (JObj props) = true ->
      dom (fst (App.ReportView (Response st (Parsed (JObj props))) p)) App.day
      = Text (lit "DAY "
              ++ JsString.padStart 3 48%N (text_of (assoc (lit "day_number") props))
              ++ lit " " ++ [JsString.em_dash] ++ lit " "
              ++ text_of (assoc (lit "date") props)))
  /\ (forall p : App.page,
      dom (fst (App.ReportView (Response 200 (Parsed Sample.day_three)) p))
        App.day
      = Text (lit "DAY 003 " ++ [JsString.em_dash] ++ lit " 2026-02-08"))
  /\ (forall p : App.page,
      dom (fst (App.ReportView (Response 200 (Parsed Sample.no_fields)) p))
        App.day
      = Text (lit "DAY 000 " ++ [JsString.em_dash] ++ lit " ")).
Proof.
  split; [| split].
  - intros Num st props p Hst Hdoc.
    rewrite (ReportView_shaped props Hdoc st p Hst). cbn [fst].
    rewrite rendered_day. reflexivity.
  - intros p. reflexivity.
  - intros p. reflexivity.
Qed.

Lemma day_label_shown_witness :
  ok 200 = true
  /\ ReportDocument Sample.day_three = true
  /\ dom (fst (App.ReportView (Response 200 (Parsed Sample.day_three))
                 Sample.previous)) App.day
     = Text (lit "DAY 003 " ++ [JsString.em_dash] ++ lit " 2026-02-08").
Proof.
  split; [reflexivity | split; [reflexivity |]].
  apply (proj1 day_label_shown IntegerNumber 200%N); reflexivity.
Defined.

(** The reading of C2 in which an absent day number contributes the
    empty string to the label fails on the document without fields: the
    label shown is ["DAY 000 — "]. *)
Lemma day_label_absent_number_counterexample :
  ReportDocument Sample.no_fields = true
  /\ dom (fst (App.ReportView (Response 200 (Parsed Sample.no_fields))
                 Sample.previous)) App.day
     <> Text (Spec.day_label_unpadded_when_absent None None)
  /\ Spec.day_label_unpadded_when_absent None None
     = lit "DAY  " ++ [JsString.em_dash] ++ lit " ".
Proof.
  split; [reflexivity | split; [| reflexivity]].
  vm_compute. discriminate.
Qed.

(** C7. For a successful response carrying a report document, the agon
    region holds the trimmed concatenation of the summary followed by
    two newlines, when the summary is present and not empty, and of
    ["Winner: "] followed by the winner, when the winner is present and
    not empty. Each part is there or not independently of the other,
    and in all cases the view completes on the success path: nothing is
    logged and the status region is empty. *)
Theorem agon_shown_for_document (Num : JsNumber) (st : N)
  (props : list (jsstring * json)) (p : App.page) :
  ok st = true ->
  ReportDocument (JObj props) = true ->
  dom (fst (App.ReportView (Response st (Parsed (JObj props))) p)) App.agon
  = Text (JsString.trim
            ((if filled (sub props "agon" "summary")
              then text_of (sub props "agon" "summary") ++ [10; 10]%N
              else [])
             ++ (if filled (sub props "agon" "winner")
                 then lit "Winner: " ++ text_of (sub props "agon" "winner")
                 else [])))
  /\ snd (App.ReportView (Response st (Parsed (JObj props))) p) = Ok tt
  /\ console (fst (App.ReportView (Response st (Parsed (JObj props))) p))
     = console p
  /\ dom (fst (App.ReportView (Response st (Parsed (JObj props))) p)) App.status
     = Text [].
Proof.
  intros Hst Hdoc.
  rewrite (ReportView_shaped props Hdoc st p Hst). cbn [fst snd].
  rewrite rendered_agon, rendered_console, rendered_status.
  repeat split.
Qed.

Lemma agon_shown_for_document_witness :
  ok 200 = true
  /\ ReportDocument Sample.summary_and_empty_winner = true
  /\ dom (fst (App.ReportView
                 (Response 200 (Parsed Sample.summary_and_empty_winner))
                 Sample.previous)) App.agon
     = Text (lit "Close call").
Proof.
  split; [reflexivity | split; [reflexivity |]].
  apply (agon_shown_for_document IntegerNumber 200%N); reflexivity.
Defined.

(** The reading of C7 in which any present winner contributes its
    ["Winner: "] part fails on a document whose winner is the empty
    string: the region holds the summary alone. *)
Lemma agon_empty_winner_counterexample :
  ReportDocument Sample.summary_and_empty_winner = true
  /\ present
       (opt_get (prop Sample.summary_and_empty_winner (lit "agon"))
          (lit "winner")) = true
  /\ dom (fst (App.ReportView
                 (Response 200 (Parsed Sample.summary_and_empty_winner))
                 Sample.previous)) App.agon
     = Text (lit "Close call")
  /\ Spec.agon_text present
       (opt_get (prop Sample.summary_and_empty_winner (lit "agon"))
          (lit "summary"))
       (opt_get (prop Sample.summary_and_empty_winner (lit "agon"))
          (lit "winner"))
     = lit "Close call" ++ [10; 10]%N ++ lit "Winner:"
  /\ dom (fst (App.ReportView
                 (Response 200 (Parsed Sample.summary_and_empty_winner))
                 Sample.previous)) App.agon
     <> Text (Spec.agon_text present
                (opt_get (prop Sample.summary_and_empty_winner (lit "agon"))
                   (lit "summary"))
                (opt_get (prop Sample.summary_and_empty_winner (lit "agon"))
                   (lit "winner"))).
Proof.
  repeat split. vm_compute. discriminate.
Qed.

(** ** The mandate block *)

Lemma trimStart_nonwhite_last (l : jsstring) (c : JsString.code_unit) :
  JsString.is_white c = false -> JsString.trimStart (l ++ [c]) <> [].
Proof.
  intros Hc. induction l as [|x l IH]; simpl.
  - rewrite Hc. discriminate.
  - destruct (JsString.is_white x); [exact IH | discriminate].
Qed.

(** A string that starts with a unit other than white space does not
    trim to the empty string. *)
Lemma trim_nonempty (c : JsString.code_unit) (s : jsstring) :
  JsString.is_white c = false -> App.nonempty (JsString.trim (c :: s)) = true.
Proof.
  intros Hc. unfold JsString.trim, JsString.trimEnd.
  cbn [JsString.trimStart]. rewrite Hc. cbn [rev].
  pose proof (trimStart_nonwhite_last (rev s) c Hc) as H.
  destruct (JsString.trimStart (rev s ++ [c])) as [|y t] eqn:E; [congruence |].
  cbn [rev]. now destruct (rev t).
Qed.

(** Each mandate line begins with its label, so none of the five is
    ever empty and the filter of line 32 removes nothing. *)
Lemma mandate_lines_all_kept {Num : JsNumber} (m : value) :
  filter App.nonempty (map JsString.trim (Spec.mandate_raw_lines m))
  = map JsString.trim (Spec.mandate_raw_lines m).
Proof.
  unfold Spec.mandate_raw_lines. cbn [map filter].
  change (lit "Compose: ") with (67%N :: lit "ompose: ").
  change (lit "Emotional axis: ") with (69%N :: lit "motional axis: ").
  change (lit "Constraint(s): ") with (67%N :: lit "onstraint(s): ").
  change (lit "Timebox: ") with (84%N :: lit "imebox: ").
  change (lit "Deliverable: ") with (68%N :: lit "eliverable: ").
  cbn [app]. rewrite !trim_nonempty by reflexivity. reflexivity.
Qed.

(** ** The build label *)

Section BuildLabel.
Context {Num : JsNumber}.
Import App.

Lemma keeps_lift {A : Type} (r : region) (x : result A) : keeps r (lift x).
Proof. intros p. reflexivity. Qed.

Lemma keeps_ret {A : Type} (r : region) (a : A) : keeps r (ret a).
Proof. intros p. reflexivity. Qed.

Lemma keeps_bind {A B : Type} (r : region) (m : M A) (k : A -> M B) :
  keeps r m -> (forall a, keeps r (k a)) -> keeps r (bind m k).
Proof.
  intros Hm Hk p. unfold bind. specialize (Hm p).
  destruct (m p) as [q [a|e]]; cbn [fst] in *.
  - rewrite (Hk a q). exact Hm.
  - exact Hm.
Qed.

Lemma keeps_textContent (r r' : region) (s : jsstring) :
  region_eqb r' r = false -> keeps r (textContent r' s).
Proof. intros H p. cbn. now rewrite H. Qed.

Lemma keeps_innerHTML (r r' : region) (s : jsstring) :
  region_eqb r' r = false -> keeps r (innerHTML r' s).
Proof. intros H p. cbn. now rewrite H. Qed.

Lemma keeps_if {A : Type} (r : region) (b : bool) (m1 m2 : M A) :
  keeps r m1 -> keeps r m2 -> keeps r (if b then m1 else m2).
Proof. now destruct b. Qed.

Ltac keeps_build :=
  repeat first
    [ apply keeps_lift
    | apply keeps_ret
    | apply keeps_textContent; reflexivity
    | apply keeps_innerHTML; reflexivity
    | apply keeps_if
    | apply keeps_bind; [| intros ? ] ].

Lemma render_day_keeps_build (j : json) : keeps build (render_day j).
Proof. unfold render_day. keeps_build. Qed.

Lemma render_diagnosis_keeps_build (j : json) :
  keeps build (render_diagnosis j).
Proof. unfold render_diagnosis. keeps_build. Qed.

Lemma render_agon_keeps_build (j : json) : keeps build (render_agon j).
Proof. unfold render_agon. keeps_build. Qed.

Lemma render_mandate_keeps_build (j : json) : keeps build (render_mandate j).
Proof. unfold render_mandate. keeps_build. Qed.

Lemma render_artifact_keeps_build (j : json) : keeps build (render_artifact j).
Proof. unfold render_artifact. keeps_build. Qed.

Lemma field_of_strict_truthy (j : json) (a k : jsstring) (v : value) :
  field_of j a k = Ok v -> truthy v = true -> field_of_strict j a k = Ok v.
Proof.
  unfold field_of, field_of_strict.
  destruct (get (Some j) a) as [o|e]; cbn [rbind]; [| discriminate].
  intros E T. injection E as <-. now apply get_of_truthy.
Qed.

Lemma render_build_outcome (j : json) : build_outcome j (render_build j).
Proof.
  intros p q res. unfold render_build, bind, lift.
  destruct (field_of j (lit "engine") (lit "version")) as [v|e] eqn:Ev.
  - destruct (truthy v) eqn:Tv.
    + rewrite (field_of_strict_truthy _ _ _ _ Ev Tv).
      destruct (ToStringV v) as [s|e] eqn:Sv.
      * intros E. injection E as <- <-. right.
        exists v, s. repeat split; assumption.
      * intros E. injection E as <- <-. reflexivity.
    + intros E. injection E as <- <-. now left.
  - intros E. injection E as <- <-. reflexivity.
Qed.

Lemma build_outcome_after (j : json) (m k : M unit) :
  keeps build m -> build_outcome j k ->
  build_outcome j (bind m (fun _ => k)).
Proof.
  intros Hm Hk p q res. unfold bind. specialize (Hm p).
  destruct (m p) as [p1 [a|e]]; cbn [fst] in Hm.
  - intros E. specialize (Hk p1 q res E). now rewrite <- Hm.
  - intros E. injection E as <- <-. exact Hm.
Qed.

Lemma render_outcome (j : json) : build_outcome j (render j).
Proof.
  unfold render.
  apply build_outcome_after; [keeps_build |].
  apply build_outcome_after; [apply render_day_keeps_build |].
  apply build_outcome_after; [apply render_diagnosis_keeps_build |].
  apply build_outcome_after; [apply render_agon_keeps_build |].
  apply build_outcome_after; [apply render_mandate_keeps_build |].
  apply build_outcome_after; [apply render_artifact_keeps_build |].
  apply render_build_outcome.
Qed.

(** A [try] block that throws leaves the build label as it was. *)
Lemma load_throw_keeps_build (net : network) (p q : App.page) (e : exn) :
  load net p = (q, Throw e) -> dom q build = dom p build.
Proof.
  unfold load, bind.
  destruct (fetch_json (region := region) net p) as [p1 [j|e1]] eqn:F.
  - assert (p1 = p) as ->.
    { revert F. unfold fetch_json.
      destruct net as [|st [|j0]]; [discriminate | |];
        destruct (ok st); intros F; now inversion F. }
    intros E. exact (render_outcome j p q (Throw e) E).
  - intros E. injection E as <- <-.
    revert F. unfold fetch_json.
    destruct net as [|st [|j0]]; [| |];
      try destruct (ok st); intros F; now inversion F.
Qed.

(** A [try] block that completes rendered a parsed document, and either
    left the build label or wrote it as line 41 does. *)
Lemma load_ok_build (net : network) (p q : App.page) :
  load net p = (q, Ok tt) ->
  exists (st : N) (j : json),
    net = Response st (Parsed j) /\ ok st = true
    /\ (dom q build = dom p build \/ build_written j (dom q build)).
Proof.
  unfold load, bind, fetch_json.
  destruct net as [|st [|j]]; try discriminate.
  - destruct (ok st); discriminate.
  - destruct (ok st) eqn:Hst; [| discriminate].
    cbn [ret]. intros E. exists st, j.
    split; [reflexivity | split; [exact Hst |]].
    exact (render_outcome j p q (Ok tt) E).
Qed.

End BuildLabel.

(** C8. The build label is written by a load only when the [try] block
    completes on a document whose [engine.version] is truthy, and then
    it is ["ENGINE v"] followed by the version; for a report document
    that is when the version is present and not the empty string. In
    every other outcome (a report document without a version or with an
    empty one, or a [try] block that throws for any reason) the build
    label keeps the content it had. *)
Theorem build_label_frame :
  (forall (Num : JsNumber) (st : N) (props : list (jsstring * json))
          (p : App.page),
      ok st = true ->
      ReportDocument (JObj props) = true ->
      dom (fst (App.ReportView (Response st (Parsed (JObj props))) p)) App.build
      = if filled (sub props "engine" "version")
        then Text (lit "ENGINE v" ++ text_of (sub props "engine" "version"))
        else dom p App.build)
  /\ (forall (Num : JsNumber) (net : network) (p q : App.page) (e : exn),
      App.load net p = (q, Throw e) ->
      dom (fst (App.ReportView net p)) App.build = dom p App.build)
  /\ (forall (Num : JsNumber) (net : network) (p : App.page),
      dom (fst (App.ReportView net p)) App.build <> dom p App.build ->
      exists (st : N) (j : json),
        net = Response st (Parsed j) /\ ok st = true
        /\ snd (App.load net p) = Ok tt
        /\ build_written j (dom (fst (App.ReportView net p)) App.build)).
Proof.
  split; [| split].
  - intros Num st props p Hst Hdoc.
    rewrite (ReportView_shaped props Hdoc st p Hst). cbn [fst].
    rewrite rendered_build. reflexivity.
  - intros Num net p q e L.
    rewrite (caught net p q e L). cbn.
    exact (load_throw_keeps_build net p q e L).
  - intros Num net p. unfold App.ReportView, try_catch.
    destruct (App.load net p) as [q [[]|e]] eqn:L; cbn [fst snd].
    + intros Hneq.
      destruct (load_ok_build net p q L) as (st & j & -> & Hst & [Same | W]);
        [contradiction |].
      exists st, j. repeat split; assumption.
    + rewrite on_error_cleared. cbn.
      intros Hneq. exfalso. apply Hneq.
      exact (load_throw_keeps_build net p q e L).
Qed.

Lemma build_label_frame_witness :
  ok 200 = true
  /\ ReportDocument Sample.version_one = true
  /\ dom (fst (App.ReportView (Response 200 (Parsed Sample.version_one))
                 Sample.previous)) App.build
     = Text (lit "ENGINE v1.4").
Proof.
  split; [reflexivity | split; [reflexivity |]].
  apply (proj1 build_label_frame IntegerNumber 200%N); reflexivity.
Defined.

(** The reading of C8 in which any present version is written fails on
    a document whose version is the empty string: the build label keeps
    its earlier content, where that reading has ["ENGINE v"]. *)
Lemma build_empty_version_counterexample :
  ReportDocument Sample.empty_version = true
  /\ present
       (opt_get (prop Sample.empty_version (lit "engine")) (lit "version"))
     = true
  /\ snd (App.ReportView (Response 200 (Parsed Sample.empty_version))
            Sample.previous) = Ok tt
  /\ console (fst (App.ReportView (Response 200 (Parsed Sample.empty_version))
                     Sample.previous)) = []
  /\ dom (fst (App.ReportView (Response 200 (Parsed Sample.empty_version))
                 Sample.previous)) App.build
     = dom Sample.previous App.build
  /\ dom (fst (App.ReportView (Response 200 (Parsed Sample.empty_version))
                 Sample.previous)) App.build
     <> Spec.build_shown present
          (opt_get (prop Sample.empty_version (lit "engine")) (lit "version"))
          (dom Sample.previous App.build).
Proof.
  repeat split. vm_compute. discriminate.
Qed.

(** ** The order of the archive *)

Lemma ltb_asym (a b : jsstring) :
  JsString.ltb a b = true -> JsString.ltb b a = false.
Proof.
  revert b. induction a as [|x a IH]; intros [|y b]; simpl; try congruence.
  intros H. apply orb_prop in H. destruct H as [H | H].
  - apply N.ltb_lt in H.
    replace (y <? x)%N with false by (symmetry; apply N.ltb_ge; lia).
    replace (y =? x)%N with false by (symmetry; apply N.eqb_neq; lia).
    reflexivity.
  - apply andb_prop in H. destruct H as [E L]. apply N.eqb_eq in E. subst y.
    rewrite N.ltb_irrefl, N.eqb_refl. simpl. now apply IH.
Qed.

Lemma ltb_leb (a b : jsstring) :
  JsString.ltb a b = true -> JsString.leb a b = true.
Proof. intros H. unfold JsString.leb. now rewrite (ltb_asym _ _ H). Qed.

Section ArchiveOrder.
Context {Num : JsNumber}.
Import Archive.

Lemma insert_perm (x : jsstring * json) (l : list (jsstring * json)) :
  Permutation (x :: l) (insert x l).
Proof.
  induction l as [|y l IH]; simpl; [reflexivity |].
  destruct (JsString.ltb (fst y) (fst x)); [| reflexivity].
  rewrite perm_swap. now apply perm_skip.
Qed.

Lemma sort_by_key_perm (l : list (jsstring * json)) :
  Permutation l (sort_by_key l).
Proof.
  induction l as [|x l IH]; simpl; [reflexivity |].
  rewrite <- insert_perm. now apply perm_skip.
Qed.

Lemma insert_hd (x y : jsstring * json) (l : list (jsstring * json)) :
  Spec.by_key y x -> HdRel Spec.by_key y l -> HdRel Spec.by_key y (insert x l).
Proof.
  intros Hyx Hl. destruct l as [|z l]; simpl; [now constructor |].
  destruct (JsString.ltb (fst z) (fst x)); constructor;
    [now inversion Hl | exact Hyx].
Qed.

Lemma insert_sorted (x : jsstring * json) (l : list (jsstring * json)) :
  Sorted Spec.by_key l -> Sorted Spec.by_key (insert x l).
Proof.
  induction 1 as [|y l Hs IH Hh]; simpl.
  - repeat constructor.
  - destruct (JsString.ltb (fst y) (fst x)) eqn:L.
    + constructor; [exact IH |].
      apply insert_hd; [now apply ltb_leb | exact Hh].
    + constructor; [now constructor |].
      constructor. unfold Spec.by_key, JsString.leb. now rewrite L.
Qed.

Lemma sort_by_key_sorted (l : list (jsstring * json)) :
  Sorted Spec.by_key (sort_by_key l).
Proof.
  induction l as [|x l IH]; simpl; [constructor | now apply insert_sorted].
Qed.

Lemma sorted_keys (l : list (jsstring * json)) :
  Sorted Spec.by_key l -> Spec.ascending (map fst l).
Proof.
  unfold Spec.ascending.
  induction 1 as [|y l Hs IH Hh]; simpl; constructor; [exact IH |].
  destruct Hh; simpl; now constructor.
Qed.

(** Reversing an ascending sequence gives a descending one. *)
Lemma sorted_snoc {A : Type} (R : A -> A -> Prop) (l : list A) (x : A) :
  Sorted R l -> (forall y, In y l -> last l x = y -> R y x) ->
  Sorted R (l ++ [x]).
Proof.
  induction 1 as [|y l Hs IH Hh]; intros Hlast; simpl.
  - repeat constructor.
  - constructor.
    + apply IH. intros z Hz Hl. apply Hlast; [now right |].
      destruct l; [contradiction | exact Hl].
    + destruct Hh as [|z l' Hyz]; simpl; constructor; [| exact Hyz].
      apply Hlast; [now left | reflexivity].
Qed.

Lemma sorted_rev {A : Type} (R : A -> A -> Prop) (l : list A) :
  Sorted R l -> Sorted (fun a b => R b a) (rev l).
Proof.
  induction 1 as [|y l Hs IH Hh]; simpl; [constructor |].
  apply sorted_snoc; [exact IH |].
  intros z Hz Hl. destruct Hh as [|w l' Hyw]; [contradiction |].
  simpl in Hl. rewrite last_last in Hl. now subst z.
Qed.

End ArchiveOrder.

(** ** Rendering an archive index *)

Section ArchiveRender.
Context {Num : JsNumber}.
Import Archive.

Lemma map_result_texts (l : list json) :
  forallb is_text l = true ->
  map_result ToString l = Ok (map (fun x => text_of (Some x)) l).
Proof.
  induction l as [|x l IH]; [reflexivity |].
  intros H. apply andb_prop in H. destruct H as [Hx Hl].
  destruct x; try discriminate. simpl. now rewrite (IH Hl).
Qed.

Lemma combine_keyed (l : list json) :
  forallb is_text l = true ->
  Forall Spec.keyed (combine (map (fun x => text_of (Some x)) l) l).
Proof.
  induction l as [|x l IH]; [constructor |].
  intros H. apply andb_prop in H. destruct H as [Hx Hl].
  destruct x; try discriminate. simpl. constructor; [reflexivity | now apply IH].
Qed.

Lemma keyed_values (l : list (jsstring * json)) :
  Forall Spec.keyed l -> map snd l = map JStr (map fst l).
Proof.
  induction 1 as [|kv l H _ IH]; [reflexivity |].
  simpl. now rewrite H, IH.
Qed.

Lemma keys_of_combine (l : list json) :
  map fst (combine (map (fun x => text_of (Some x)) l) l)
  = map (fun x => text_of (Some x)) l.
Proof.
  induction l as [|x l IH]; [reflexivity |].
  cbn [map combine fst]. f_equal. exact IH.
Qed.

(** [sort()] on strings: the ascending arrangement of the same strings. *)
Lemma call_sort_texts (l : list json) :
  forallb is_text l = true ->
  exists asc : list jsstring,
    Permutation asc (map (fun x => text_of (Some x)) l)
    /\ Spec.ascending asc
    /\ call_sort (JArr l) = Ok (map JStr asc).
Proof.
  intros H.
  pose (keys := map (fun x => text_of (Some x)) l).
  exists (map fst (sort_by_key (combine keys l))).
  split; [| split].
  - apply Permutation_trans with (map fst (combine keys l)).
    + apply Permutation_map. symmetry. apply sort_by_key_perm.
    + replace (map fst (combine keys l)) with keys
        by (symmetry; exact (keys_of_combine l)).
      reflexivity.
  - apply sorted_keys, sort_by_key_sorted.
  - assert (E : map snd (sort_by_key (combine keys l))
                = map JStr (map fst (sort_by_key (combine keys l)))).
    { apply keyed_values.
      eapply Permutation_Forall; [apply sort_by_key_perm |].
      now apply combine_keyed. }
    rewrite <- E. unfold call_sort, keys.
    destruct l as [|x [|y l']].
    + reflexivity.
    + simpl in H. destruct x; try discriminate. reflexivity.
    + rewrite (map_result_texts _ H). reflexivity.
Qed.

Lemma entry_text (d : jsstring) : entry (JStr d) = Ok (Spec.archive_link d).
Proof. reflexivity. Qed.

Lemma entries_texts (l : list jsstring) :
  map_result entry (map JStr l) = Ok (map Spec.archive_link l).
Proof.
  induction l as [|d l IH]; [reflexivity |].
  simpl map. cbn [map_result]. rewrite entry_text, IH. reflexivity.
Qed.

Lemma join_empty_separator (parts : list jsstring) :
  JsString.join [] parts = List.concat parts.
Proof.
  induction parts as [|a parts IH]; [reflexivity |].
  simpl. destruct parts as [|b parts'].
  - simpl. now rewrite app_nil_r.
  - now rewrite IH.
Qed.

(** [(j.dates || []).slice()] on an index of the expected shape. *)
Lemma dates_copy (v : value) :
  optional is_texts v = true ->
  call_slice_all (truthy_or v (JArr [])) = Ok (JArr (Spec.elems_of v))
  /\ forallb is_text (Spec.elems_of v) = true
  /\ texts_of v = map (fun x => text_of (Some x)) (Spec.elems_of v).
Proof.
  destruct v as [[]|]; simpl; intros H; try discriminate; repeat split.
  exact H.
Qed.

Lemma ArchiveView_shaped (st : N) (props : list (jsstring * json))
  (p : Archive.page) :
  ok st = true ->
  ArchiveIndex (JObj props) = true ->
  exists asc : list jsstring,
    Permutation asc (texts_of (assoc (lit "dates") props))
    /\ Spec.ascending asc
    /\ ArchiveView (Response st (Parsed (JObj props))) p
       = (put region_eqb list_el (Spec.archive_list (rev asc)) p, Ok tt).
Proof.
  intros Hst Hidx. unfold ArchiveIndex, object_of, field in Hidx.
  destruct (dates_copy _ Hidx) as (Hcopy & Htexts & Hsame).
  destruct (call_sort_texts _ Htexts) as (asc & Hperm & Hasc & Hsort).
  exists asc. split; [now rewrite Hsame | split; [exact Hasc |]].
  unfold ArchiveView, try_catch, load, bind, fetch_json. rewrite Hst.
  cbn [ret]. unfold render, bind, lift, sorted_dates, get, prop.
  cbn [rbind]. rewrite Hcopy. cbn [rbind]. rewrite Hsort. cbn [rbind].
  rewrite <- map_rev, entries_texts, join_empty_separator.
  reflexivity.
Qed.

End ArchiveRender.

(** C9. For a successful response carrying an object whose [dates] is
    absent or is the empty sequence, the list region is given the empty
    markup, that is no entry, and the view completes on the success
    path: the handler does not run and nothing is logged. *)
Theorem archive_without_dates (Num : JsNumber) (st : N)
  (props : list (jsstring * json)) (p : Archive.page) :
  ok st = true ->
  present (assoc (lit "dates") props) = false
  \/ assoc (lit "dates") props = Some (JArr []) ->
  dom (fst (Archive.ArchiveView (Response st (Parsed (JObj props))) p))
    Archive.list_el = Html []
  /\ snd (Archive.ArchiveView (Response st (Parsed (JObj props))) p) = Ok tt
  /\ console (fst (Archive.ArchiveView (Response st (Parsed (JObj props))) p))
     = console p.
Proof.
  intros Hst Hdates.
  unfold Archive.ArchiveView, try_catch, Archive.load, bind, fetch_json.
  rewrite Hst. cbn [ret].
  unfold Archive.render, bind, lift, Archive.sorted_dates, get, prop.
  cbn [rbind].
  destruct Hdates as [Habsent | ->].
  - destruct (assoc (lit "dates") props) as [[]|]; try discriminate;
      repeat split.
  - repeat split.
Qed.

Lemma archive_without_dates_witness :
  ok 200 = true
  /\ present (prop Sample.no_dates (lit "dates")) = false
  /\ dom (fst (Archive.ArchiveView (Response 200 (Parsed Sample.no_dates))
                 Sample.previous_archive)) Archive.list_el = Html [].
Proof.
  split; [reflexivity | split; [reflexivity |]].
  apply (archive_without_dates IntegerNumber 200%N []); [reflexivity |].
  left. reflexivity.
Defined.

(** ** Every outcome of the report view *)

Section ReportOutcomes.
Context {Num : JsNumber}.
Import App.

Lemma blind_lift {A : Type} (x : result A) : blind (lift x).
Proof. intros p p'. reflexivity. Qed.

Lemma blind_ret {A : Type} (a : A) : blind (ret a).
Proof. intros p p'. reflexivity. Qed.

Lemma blind_textContent (r : region) (s : jsstring) : blind (textContent r s).
Proof. intros p p'. reflexivity. Qed.

Lemma blind_innerHTML (r : region) (s : jsstring) : blind (innerHTML r s).
Proof. intros p p'. reflexivity. Qed.

Lemma blind_if {A : Type} (b : bool) (m1 m2 : M A) :
  blind m1 -> blind m2 -> blind (if b then m1 else m2).
Proof. now destruct b. Qed.

Lemma blind_bind {A B : Type} (m : M A) (k : A -> M B) :
  blind m -> (forall a, blind (k a)) -> blind (bind m k).
Proof.
  intros Hm Hk p p'. unfold bind. specialize (Hm p p').
  destruct (m p) as [q [a|e]], (m p') as [q' [a'|e']]; cbn [snd] in Hm;
    try discriminate.
  - injection Hm as <-. apply Hk.
  - injection Hm as <-. reflexivity.
Qed.

Lemma quiet_lift {A : Type} (x : result A) : quiet (lift x).
Proof. intros p. reflexivity. Qed.

Lemma quiet_ret {A : Type} (a : A) : quiet (ret a).
Proof. intros p. reflexivity. Qed.

Lemma quiet_textContent (r : region) (s : jsstring) : quiet (textContent r s).
Proof. intros p. reflexivity. Qed.

Lemma quiet_innerHTML (r : region) (s : jsstring) : quiet (innerHTML r s).
Proof. intros p. reflexivity. Qed.

Lemma quiet_if {A : Type} (b : bool) (m1 m2 : M A) :
  quiet m1 -> quiet m2 -> quiet (if b then m1 else m2).
Proof. now destruct b. Qed.

Lemma quiet_bind {A B : Type} (m : M A) (k : A -> M B) :
  quiet m -> (forall a, quiet (k a)) -> quiet (bind m k).
Proof.
  intros Hm Hk p. unfold bind. specialize (Hm p).
  destruct (m p) as [q [a|e]]; cbn [fst] in *.
  - rewrite (Hk a q). exact Hm.
  - exact Hm.
Qed.

Lemma region_eqb_refl (r : region) : region_eqb r r = true.
Proof. now destruct r. Qed.

Lemma sets_textContent (r : region) (s : jsstring) : sets r (textContent r s).
Proof. intros p p' a _. cbn. now rewrite region_eqb_refl. Qed.

Lemma sets_innerHTML (r : region) (s : jsstring) : sets r (innerHTML r s).
Proof. intros p p' a _. cbn. now rewrite region_eqb_refl. Qed.

Lemma sets_if {A : Type} (r : region) (b : bool) (m1 m2 : M A) :
  sets r m1 -> sets r m2 -> sets r (if b then m1 else m2).
Proof. now destruct b. Qed.

(** The region is set by what follows [m]. *)
Lemma sets_later {A B : Type} (r : region) (m : M A) (k : A -> M B) :
  blind m -> (forall a, sets r (k a)) -> sets r (bind m k).
Proof.
  intros Hm Hk p p' b. unfold bind. specialize (Hm p p').
  destruct (m p) as [q [a|e]], (m p') as [q' [a'|e']]; cbn [snd] in Hm;
    try discriminate.
  injection Hm as <-. apply Hk.
Qed.

(** The region is set by [m] and kept by what follows. *)
Lemma sets_now {A B : Type} (r : region) (m : M A) (k : A -> M B) :
  sets r m -> blind m -> (forall a, keeps r (k a)) -> sets r (bind m k).
Proof.
  intros Hs Hm Hk p p' b. unfold bind.
  specialize (Hm p p'). specialize (Hs p p').
  destruct (m p) as [q [a|e]], (m p') as [q' [a'|e']]; cbn [snd fst] in *;
    try discriminate.
  injection Hm as <-. intros _.
  rewrite (Hk a q), (Hk a q'). now apply (Hs a).
Qed.

Ltac blocks :=
  unfold render_day, render_diagnosis, render_agon, render_mandate,
    render_artifact, render_build.

Ltac is_blind :=
  blocks;
  repeat first
    [ apply blind_lift | apply blind_ret | apply blind_textContent
    | apply blind_innerHTML | apply blind_if
    | apply blind_bind; [| intros ? ] ].

Ltac is_quiet :=
  blocks;
  repeat first
    [ apply quiet_lift | apply quiet_ret | apply quiet_textContent
    | apply quiet_innerHTML | apply quiet_if
    | apply quiet_bind; [| intros ? ] ].

Ltac does_keep :=
  blocks;
  repeat first
    [ apply keeps_lift | apply keeps_ret
    | apply keeps_textContent; reflexivity
    | apply keeps_innerHTML; reflexivity
    | apply keeps_if
    | apply keeps_bind; [| intros ? ] ].

Ltac does_set :=
  blocks;
  repeat first
    [ apply sets_textContent | apply sets_innerHTML | apply sets_if
    | apply sets_later; [solve [is_blind] | intros ? ] ].

Lemma render_blind (j : json) : blind (render j).
Proof. unfold render. is_blind. Qed.

Lemma render_quiet (j : json) : quiet (render j).
Proof. unfold render. is_quiet. Qed.

Lemma render_sets (j : json) (r : region) :
  refreshed r = true -> sets r (render j).
Proof.
  unfold render. destruct r; try discriminate; intros _.
  - apply sets_now; [does_set | is_blind | intros _; does_keep].
  - do 2 (apply sets_later; [solve [is_blind] | intros _]).
    apply sets_now; [does_set | is_blind | intros _; does_keep].
  - do 3 (apply sets_later; [solve [is_blind] | intros _]).
    apply sets_now; [does_set | is_blind | intros _; does_keep].
  - do 4 (apply sets_later; [solve [is_blind] | intros _]).
    apply sets_now; [does_set | is_blind | intros _; does_keep].
  - do 5 (apply sets_later; [solve [is_blind] | intros _]).
    apply sets_now; [does_set | is_blind | intros _; does_keep].
Qed.

Lemma fetch_json_pure (net : network) (p : App.page) :
  fetch_json (region := region) net p
  = (p, snd (fetch_json (region := region) net p))
  /\ forall p' : App.page,
       snd (fetch_json (region := region) net p)
       = snd (fetch_json (region := region) net p').
Proof.
  unfold fetch_json. destruct net as [|st [|j]]; [| |];
    try destruct (ok st); split; reflexivity.
Qed.

Lemma load_blind (net : network) : blind (load net).
Proof.
  unfold load. apply blind_bind; [| intros j; apply render_blind].
  intros p p'. apply fetch_json_pure.
Qed.

Lemma load_quiet (net : network) : quiet (load net).
Proof.
  unfold load. apply quiet_bind; [| intros j; apply render_quiet].
  intros p. now rewrite (proj1 (fetch_json_pure net p)).
Qed.

Lemma load_sets (net : network) (r : region) :
  refreshed r = true -> sets r (load net).
Proof.
  intros Hr. unfold load.
  apply sets_later; [| intros j; now apply render_sets].
  intros p p'. apply fetch_json_pure.
Qed.

(** A [try] block that completes has emptied the status region. *)
Lemma load_ok_status (net : network) (p q : App.page) :
  load net p = (q, Ok tt) -> dom q status = Text [].
Proof.
  unfold load, bind at 1.
  rewrite (proj1 (fetch_json_pure net p)).
  destruct (snd (fetch_json (region := region) net p)) as [j|e];
    [| discriminate].
  unfold render, bind at 1. cbn [textContent set_textContent write].
  set (p1 := put region_eqb status (Text []) p).
  set (rest := bind (render_day j) _).
  assert (K : keeps status rest) by (subst rest; does_keep).
  intros E. specialize (K p1). rewrite E in K. exact K.
Qed.

End ReportOutcomes.

Section ReportOutcomeTheorems.
Context {Num : JsNumber}.
Import App.

(** X1. Whatever the response and whatever the page, the report view
    returns normally, and it ends in one of two states: the [try] block
    completed, nothing was logged and the status region is empty; or
    the [try] block threw, exactly that error was logged, the status
    region holds the fixed message, the diagnosis, agon, mandate and
    artifact regions are empty and the build label is what it was. *)
Theorem report_view_outcomes (net : network) (p : App.page) :
  snd (ReportView net p) = Ok tt
  /\ ((snd (load net p) = Ok tt
       /\ console (fst (ReportView net p)) = console p
       /\ dom (fst (ReportView net p)) status = Text [])
      \/ (exists e : exn,
            snd (load net p) = Throw e
            /\ console (fst (ReportView net p)) = e :: console p
            /\ dom (fst (ReportView net p)) status
               = Text (lit "Report unavailable right now.")
            /\ dom (fst (ReportView net p)) diagnosis = Text []
            /\ dom (fst (ReportView net p)) agon = Text []
            /\ dom (fst (ReportView net p)) mandate = Text []
            /\ dom (fst (ReportView net p)) artifact = Text []
            /\ dom (fst (ReportView net p)) build = dom p build)).
Proof.
  pose proof (load_quiet net p) as Q.
  destruct (load net p) as [q [[]|e]] eqn:L; cbn [fst snd] in *.
  - unfold ReportView, try_catch. rewrite L. cbn [fst snd].
    split; [reflexivity | left].
    split; [reflexivity | split; [exact Q |]].
    exact (load_ok_status net p q L).
  - rewrite (caught net p q e L). cbn [fst snd].
    split; [reflexivity | right]. exists e.
    split; [reflexivity |]. split; [cbn; now rewrite Q |].
    repeat split. cbn. exact (load_throw_keeps_build net p q e L).
Qed.

(** After any load the status, diagnosis, agon, mandate and artifact
    regions do not depend on the page the load started from. *)
Lemma refreshed_independent (net : network) (p p' : App.page) (r : region) :
  refreshed r = true ->
  dom (fst (ReportView net p)) r = dom (fst (ReportView net p')) r.
Proof.
  intros Hr. unfold ReportView, try_catch.
  pose proof (load_blind net p p') as B.
  pose proof (load_sets net r Hr p p') as S.
  destruct (load net p) as [q [[]|e]], (load net p') as [q' [[]|e']];
    cbn [fst snd] in *; try discriminate.
  - now apply (S tt).
  - rewrite !on_error_cleared. destruct r; try discriminate; reflexivity.
Qed.

(** X2. The status, diagnosis, agon, mandate and artifact regions never
    keep what they showed before the load: after the view has run, on
    success or on failure, their contents are the same whatever the
    page held before. *)
Theorem report_regions_never_stale (net : network) (p p' : App.page) :
  dom (fst (ReportView net p)) status = dom (fst (ReportView net p')) status
  /\ dom (fst (ReportView net p)) diagnosis
     = dom (fst (ReportView net p')) diagnosis
  /\ dom (fst (ReportView net p)) agon = dom (fst (ReportView net p')) agon
  /\ dom (fst (ReportView net p)) mandate
     = dom (fst (ReportView net p')) mandate
  /\ dom (fst (ReportView net p)) artifact
     = dom (fst (ReportView net p')) artifact.
Proof. repeat split; now apply refreshed_independent. Qed.

(** X3. A response with a status outside 200-299 is never rendered: the
    body is not read, so the page and the log are the same whatever the
    body is, and the error logged is [Error("Fetch failed: " + status)].
    A request that gets no response logs a [TypeError], a body that is
    not JSON a [SyntaxError]. *)
Theorem report_fetch_errors :
  (forall (st : N) (b b' : body) (p : App.page),
      ok st = false ->
      ReportView (Response st b) p = ReportView (Response st b') p
      /\ console (fst (ReportView (Response st b) p))
         = Error (lit "Fetch failed: " ++ JsString.of_N st) :: console p)
  /\ (forall p : App.page,
      console (fst (ReportView Unreachable p)) = TypeError :: console p)
  /\ (forall (st : N) (p : App.page),
      ok st = true ->
      console (fst (ReportView (Response st Malformed) p))
      = SyntaxError :: console p).
Proof.
  split; [| split].
  - intros st b b' p Hst.
    unfold ReportView, try_catch, load, bind, fetch_json. rewrite Hst.
    split; reflexivity.
  - intros p. reflexivity.
  - intros st p Hst.
    unfold ReportView, try_catch, load, bind, fetch_json. rewrite Hst.
    reflexivity.
Qed.

End ReportOutcomeTheorems.

Lemma report_fetch_errors_witness :
  ok 404 = false
  /\ console (fst (App.ReportView (Response 404 (Parsed Sample.day_three))
                     Sample.previous))
     = [Error (lit "Fetch failed: 404")].
Proof.
  split; [reflexivity |].
  apply (proj1 report_fetch_errors 404%N (Parsed Sample.day_three) Malformed
           Sample.previous).
  reflexivity.
Defined.

(** ** Documents of another shape *)

Section ReportShapes.
Context {Num : JsNumber}.
Import App.

Lemma plain_like_empty (st : N) (j : json) (p : App.page) :
  plain j = true ->
  ReportView (Response st (Parsed j)) p
  = ReportView (Response st (Parsed (JObj []))) p.
Proof.
  intros H. unfold ReportView, try_catch, load, bind, fetch_json.
  destruct (ok st); [| reflexivity].
  destruct j; try discriminate; reflexivity.
Qed.

(** X4. A body that parses to a boolean, a number, a string or an array
    is not an error: every field reads as [undefined], so the view
    completes and shows the defaults, as for the empty object: the day
    label ["DAY 000 — "], an empty diagnosis and agon text, the five
    bare mandate lines with a timebox of 8 hours, ["PENDING"], and the
    build label as it was. *)
Theorem report_plain_body (st : N) (j : json) (p : App.page) :
  ok st = true ->
  plain j = true ->
  snd (ReportView (Response st (Parsed j)) p) = Ok tt
  /\ console (fst (ReportView (Response st (Parsed j)) p)) = console p
  /\ dom (fst (ReportView (Response st (Parsed j)) p)) status = Text []
  /\ dom (fst (ReportView (Response st (Parsed j)) p)) day
     = Text (lit "DAY 000 " ++ [JsString.em_dash] ++ lit " ")
  /\ dom (fst (ReportView (Response st (Parsed j)) p)) diagnosis = Text []
  /\ dom (fst (ReportView (Response st (Parsed j)) p)) agon = Text []
  /\ dom (fst (ReportView (Response st (Parsed j)) p)) mandate
     = Text (JsString.join [newline]
               [ lit "Compose:"; lit "Emotional axis:"; lit "Constraint(s):";
                 lit "Timebox: 8 hours"; lit "Deliverable:" ])
  /\ dom (fst (ReportView (Response st (Parsed j)) p)) artifact
     = Text (lit "PENDING")
  /\ dom (fst (ReportView (Response st (Parsed j)) p)) build = dom p build.
Proof.
  intros Hst Hj. rewrite (plain_like_empty st j p Hj).
  rewrite (ReportView_shaped [] eq_refl st p Hst).
  repeat split.
Qed.

Lemma throws_now {A B : Type} (m : M A) (k : A -> M B) :
  throws m -> throws (bind m k).
Proof.
  intros H p. destruct (H p) as (q & e & E).
  exists q, e. unfold bind. now rewrite E.
Qed.

Lemma throws_later {A B : Type} (m : M A) (k : A -> M B) :
  (forall a, throws (k a)) -> throws (bind m k).
Proof.
  intros H p. unfold bind.
  destruct (m p) as [q [a|e]]; [apply H | now exists q, e].
Qed.

Lemma throws_lift {A B : Type} (e : exn) (k : A -> M B) :
  throws (bind (lift (Throw e)) k).
Proof. intros p. now exists p, e. Qed.

(** Line 29 throws when [constraints] is truthy and has no [join]. *)
Lemma constraints_line_throws (mprops : list (jsstring * json)) (c : json) :
  assoc (lit "constraints") mprops = Some c ->
  truthy (Some c) = true ->
  is_array c = false ->
  constraints_line (JObj mprops) = Throw TypeError.
Proof.
  intros Hc Ht Ha. unfold constraints_line, get, prop. rewrite Hc.
  cbn [rbind]. unfold truthy_or. rewrite Ht.
  destruct c; try discriminate; reflexivity.
Qed.

Lemma mandate_lines_throw (props mprops : list (jsstring * json)) (c : json) :
  assoc (lit "mandate") props = Some (JObj mprops) ->
  assoc (lit "constraints") mprops = Some c ->
  truthy (Some c) = true ->
  is_array c = false ->
  exists e : exn, mandate_lines (JObj props) = Throw e.
Proof.
  intros Hm Hc Ht Ha. unfold mandate_lines, get, prop. rewrite Hm.
  cbn [rbind truthy_or truthy].
  destruct (mandate_line _ _ (lit "medium")) as [l1|e1];
    [| now exists e1]. cbn [rbind].
  destruct (mandate_line _ _ (lit "emotional_axis")) as [l2|e2];
    [| now exists e2]. cbn [rbind].
  rewrite (constraints_line_throws mprops c Hc Ht Ha).
  now exists TypeError.
Qed.

(** X5. A document whose [mandate.constraints] is truthy and is not an
    array (a string, a number other than zero, [true], an object) is
    not rendered: the [try] block throws at the latest when line 29
    calls [join], and the view ends on the failure path. *)
Theorem constraints_must_be_an_array (st : N)
  (props mprops : list (jsstring * json)) (c : json) (p : App.page) :
  ok st = true ->
  assoc (lit "mandate") props = Some (JObj mprops) ->
  assoc (lit "constraints") mprops = Some c ->
  truthy (Some c) = true ->
  is_array c = false ->
  (exists e : exn,
     snd (load (Response st (Parsed (JObj props))) p) = Throw e)
  /\ snd (ReportView (Response st (Parsed (JObj props))) p) = Ok tt
  /\ dom (fst (ReportView (Response st (Parsed (JObj props))) p)) status
     = Text (lit "Report unavailable right now.")
  /\ dom (fst (ReportView (Response st (Parsed (JObj props))) p)) mandate
     = Text [].
Proof.
  intros Hst Hm Hc Ht Ha.
  destruct (mandate_lines_throw props mprops c Hm Hc Ht Ha) as [e0 He0].
  assert (T : throws (render (JObj props))).
  { unfold render. do 4 (apply throws_later; intros _).
    apply throws_now. unfold render_mandate. rewrite He0.
    apply throws_lift. }
  assert (L : exists q e, load (Response st (Parsed (JObj props))) p
                          = (q, Throw e)).
  { unfold load, bind, fetch_json. rewrite Hst. cbn [ret]. apply T. }
  destruct L as (q & e & L).
  rewrite (caught _ p q e L), L. cbn [fst snd].
  split; [now exists e | repeat split].
Qed.

End ReportShapes.

Lemma report_plain_body_witness :
  ok 200 = true
  /\ plain (JArr [str "a"; @JNum IntegerNumber 7%Z]) = true
  /\ dom (fst (App.ReportView
                 (Response 200 (Parsed (JArr [str "a"; @JNum IntegerNumber 7%Z])))
                 Sample.previous)) App.artifact
     = Text (lit "PENDING").
Proof.
  split; [reflexivity | split; [reflexivity |]].
  apply (report_plain_body 200%N (JArr [str "a"; @JNum IntegerNumber 7%Z]) Sample.previous);
    reflexivity.
Defined.

Lemma constraints_must_be_an_array_witness :
  ok 200 = true
  /\ truthy (Some (str "no dialogue")) = true
  /\ is_array (str "no dialogue") = false
  /\ dom (fst (App.ReportView (Response 200 (Parsed Sample.constraints_as_text))
                 Sample.previous)) App.status
     = Text (lit "Report unavailable right now.").
Proof.
  split; [reflexivity | split; [reflexivity | split; [reflexivity |]]].
  apply (constraints_must_be_an_array 200%N
           [(lit "day_number", @JNum IntegerNumber 3%Z); (lit "date", str "2026-02-08");
            (lit "mandate", obj [("constraints", str "no dialogue")]%string)]
           [(lit "constraints", str "no dialogue")] (str "no dialogue")
           Sample.previous); reflexivity.
Defined.

(** ** Trimming and padding *)

Lemma trimStart_head (s : jsstring) (c : JsString.code_unit) (r : jsstring) :
  JsString.trimStart s = c :: r -> JsString.is_white c = false.
Proof.
  induction s as [|x s IH]; simpl; [discriminate |].
  destruct (JsString.is_white x) eqn:W; [exact IH |].
  intros E. injection E as <- _. exact W.
Qed.

Lemma trimStart_suffix (s : jsstring) :
  exists pre : jsstring, s = pre ++ JsString.trimStart s.
Proof.
  induction s as [|x s [pre IH]]; simpl; [now exists [] |].
  destruct (JsString.is_white x).
  - exists (x :: pre). simpl. now f_equal.
  - now exists [].
Qed.

Lemma trimStart_before_nonwhite (u : jsstring) (c : JsString.code_unit)
  (v : jsstring) :
  JsString.is_white c = false ->
  JsString.trimStart (u ++ c :: v) = JsString.trimStart u ++ c :: v.
Proof.
  intros Hc. induction u as [|x u IH]; simpl.
  - now rewrite Hc.
  - destruct (JsString.is_white x); [exact IH | reflexivity].
Qed.

(** [trimEnd] does not reach past a unit that is not white space. *)
Lemma trimEnd_after_nonwhite (a : jsstring) (c : JsString.code_unit)
  (t : jsstring) :
  JsString.is_white c = false ->
  JsString.trimEnd ((a ++ [c]) ++ t) = (a ++ [c]) ++ JsString.trimEnd t.
Proof.
  intros Hc. unfold JsString.trimEnd.
  rewrite rev_app_distr, rev_app_distr. cbn [rev app].
  rewrite (trimStart_before_nonwhite _ _ _ Hc).
  rewrite rev_app_distr. cbn [rev]. rewrite rev_involutive.
  reflexivity.
Qed.

(** A label that begins and ends with units other than white space
    survives [trim]; only the end of what follows it is trimmed. *)
Lemma trim_after_label (d : JsString.code_unit) (a : jsstring)
  (c : JsString.code_unit) (t : jsstring) :
  JsString.is_white d = false ->
  JsString.is_white c = false ->
  JsString.trim ((d :: a ++ [c]) ++ t)
  = (d :: a ++ [c]) ++ JsString.trimEnd t.
Proof.
  intros Hd Hc. unfold JsString.trim.
  cbn [app JsString.trimStart]. rewrite Hd.
  exact (trimEnd_after_nonwhite (d :: a) c t Hc).
Qed.

Lemma trim_first (s : jsstring) (c : JsString.code_unit) (r : jsstring) :
  JsString.trim s = c :: r -> JsString.is_white c = false.
Proof.
  unfold JsString.trim, JsString.trimEnd. intros E.
  destruct (trimStart_suffix (rev (JsString.trimStart s))) as [pre P].
  apply (f_equal (@rev _)) in P. rewrite rev_involutive, rev_app_distr in P.
  rewrite E in P. cbn [app] in P.
  exact (trimStart_head s c _ P).
Qed.

Lemma trim_last (s init : jsstring) (c : JsString.code_unit) :
  JsString.trim s = init ++ [c] -> JsString.is_white c = false.
Proof.
  unfold JsString.trim, JsString.trimEnd. intros E.
  apply (f_equal (@rev _)) in E. rewrite rev_involutive, rev_app_distr in E.
  cbn [rev app] in E. exact (trimStart_head _ c _ E).
Qed.

Lemma padStart_long_enough (n : nat) (c : JsString.code_unit) (s : jsstring) :
  (n <= List.length s)%nat -> JsString.padStart n c s = s.
Proof.
  intros H. unfold JsString.padStart.
  replace (n - List.length s)%nat with 0%nat by lia. reflexivity.
Qed.

Lemma padStart_length (n : nat) (c : JsString.code_unit) (s : jsstring) :
  List.length (JsString.padStart n c s) = Nat.max n (List.length s).
Proof.
  unfold JsString.padStart. rewrite length_app, repeat_length. lia.
Qed.

(** ** More on a rendered report document *)

Section ReportDetails.
Context {Num : JsNumber}.
Import App.

Lemma rendered_diagnosis (props : list (jsstring * json)) (p : App.page) :
  dom (rendered props p) diagnosis
  = Text (text_of (assoc (lit "diagnosis") props)).
Proof. unfold rendered. now destruct (filled _). Qed.

(** X6. For a successful response carrying a report document, the
    status region is emptied and the diagnosis region holds the
    diagnosis text as it is in the document, untrimmed, or the empty
    string when the diagnosis is absent. *)
Theorem diagnosis_shown_verbatim (st : N) (props : list (jsstring * json))
  (p : App.page) :
  ok st = true ->
  ReportDocument (JObj props) = true ->
  dom (fst (ReportView (Response st (Parsed (JObj props))) p)) diagnosis
  = Text (match assoc (lit "diagnosis") props with
          | Some (JStr s) => s
          | _ => []
          end)
  /\ dom (fst (ReportView (Response st (Parsed (JObj props))) p)) status
     = Text [].
Proof.
  intros Hst Hdoc.
  rewrite (ReportView_shaped props Hdoc st p Hst). cbn [fst].
  rewrite rendered_diagnosis, rendered_status. split; [| reflexivity].
  destruct (document_fields props Hdoc) as (_ & _ & Hd & _).
  destruct (assoc (lit "diagnosis") props) as [[]|]; try discriminate;
    reflexivity.
Qed.

Lemma mandate_lines_labelled (m : value) :
  map JsString.trim (Spec.mandate_raw_lines m)
  = [ lit "Compose:"
        ++ JsString.trimEnd (lit " " ++ text_of (opt_get m (lit "medium")));
      lit "Emotional axis:"
        ++ JsString.trimEnd
             (lit " " ++ text_of (opt_get m (lit "emotional_axis")));
      lit "Constraint(s):"
        ++ JsString.trimEnd
             (lit " " ++ JsString.join (lit "; ")
                           (texts_of (opt_get m (lit "constraints"))));
      lit "Timebox:"
        ++ JsString.trimEnd
             (lit " "
              ++ (if present (opt_get m (lit "timebox_hours"))
                  then text_of (opt_get m (lit "timebox_hours")) else lit "8")
              ++ lit " hours");
      lit "Deliverable:"
        ++ JsString.trimEnd
             (lit " " ++ text_of (opt_get m (lit "deliverable"))) ].
Proof.
  unfold Spec.mandate_raw_lines. cbn [map].
  repeat f_equal.
  - exact (trim_after_label 67%N (lit "ompose") 58%N _ eq_refl eq_refl).
  - exact (trim_after_label 69%N (lit "motional axis") 58%N _ eq_refl eq_refl).
  - exact (trim_after_label 67%N (lit "onstraint(s)") 58%N _ eq_refl eq_refl).
  - exact (trim_after_label 84%N (lit "imebox") 58%N _ eq_refl eq_refl).
  - exact (trim_after_label 68%N (lit "eliverable") 58%N _ eq_refl eq_refl).
Qed.

(** X7. For a successful response carrying a report document, the
    mandate region always holds five parts joined by newlines, each
    beginning with its label: the filter of line 32 never removes a
    line, because the label is part of the line. A field that is absent
    or empty leaves the bare label, and only the end of a line is
    trimmed. *)
Theorem mandate_always_five_lines (st : N) (props : list (jsstring * json))
  (p : App.page) :
  ok st = true ->
  ReportDocument (JObj props) = true ->
  let m := assoc (lit "mandate") props in
  dom (fst (ReportView (Response st (Parsed (JObj props))) p)) mandate
  = Text (JsString.join [10%N]
      [ lit "Compose:"
          ++ JsString.trimEnd (lit " " ++ text_of (opt_get m (lit "medium")));
        lit "Emotional axis:"
          ++ JsString.trimEnd
               (lit " " ++ text_of (opt_get m (lit "emotional_axis")));
        lit "Constraint(s):"
          ++ JsString.trimEnd
               (lit " " ++ JsString.join (lit "; ")
                             (texts_of (opt_get m (lit "constraints"))));
        lit "Timebox:"
          ++ JsString.trimEnd
               (lit " "
                ++ (if present (opt_get m (lit "timebox_hours"))
                    then text_of (opt_get m (lit "timebox_hours"))
                    else lit "8")
                ++ lit " hours");
        lit "Deliverable:"
          ++ JsString.trimEnd
               (lit " " ++ text_of (opt_get m (lit "deliverable"))) ]).
Proof.
  intros Hst Hdoc m. subst m.
  rewrite (ReportView_shaped props Hdoc st p Hst). cbn [fst].
  rewrite rendered_mandate. unfold Spec.mandate_block.
  rewrite mandate_lines_all_kept, mandate_lines_labelled.
  reflexivity.
Qed.

(** X8. For a successful response carrying a report document, the text
    of the agon region neither begins nor ends with a white-space or
    line-terminator unit, and it is empty when the summary and the
    winner are both absent or empty. *)
Theorem agon_text_is_trimmed (st : N) (props : list (jsstring * json))
  (p : App.page) :
  ok st = true ->
  ReportDocument (JObj props) = true ->
  exists t : jsstring,
    dom (fst (ReportView (Response st (Parsed (JObj props))) p)) agon = Text t
    /\ (forall c rest, t = c :: rest -> JsString.is_white c = false)
    /\ (forall init c, t = init ++ [c] -> JsString.is_white c = false)
    /\ (filled (sub props "agon" "summary") = false ->
        filled (sub props "agon" "winner") = false -> t = []).
Proof.
  intros Hst Hdoc.
  rewrite (ReportView_shaped props Hdoc st p Hst). cbn [fst].
  rewrite rendered_agon. unfold Spec.agon_text.
  eexists. split; [reflexivity |]. split; [| split].
  - intros c rest E. exact (trim_first _ c rest E).
  - intros init c E. exact (trim_last _ init c E).
  - intros -> ->. reflexivity.
Qed.

(** X9. For a successful response carrying a report document, a day
    number whose text has three units or more is shown in full, without
    padding and without truncation; in every case the number part of
    the label has as many units as the longer of three and the text. *)
Theorem day_number_never_truncated (st : N) (props : list (jsstring * json))
  (p : App.page) :
  ok st = true ->
  ReportDocument (JObj props) = true ->
  let n := text_of (assoc (lit "day_number") props) in
  (exists seg : jsstring,
     dom (fst (ReportView (Response st (Parsed (JObj props))) p)) day
     = Text (lit "DAY " ++ seg ++ lit " " ++ [JsString.em_dash] ++ lit " "
             ++ text_of (assoc (lit "date") props))
     /\ List.length seg = Nat.max 3 (List.length n)
     /\ exists zeros : jsstring,
          seg = zeros ++ n /\ Forall (fun c => c = 48%N) zeros)
  /\ ((3 <= List.length n)%nat ->
      dom (fst (ReportView (Response st (Parsed (JObj props))) p)) day
      = Text (lit "DAY " ++ n ++ lit " " ++ [JsString.em_dash] ++ lit " "
              ++ text_of (assoc (lit "date") props))).
Proof.
  intros Hst Hdoc n.
  rewrite (ReportView_shaped props Hdoc st p Hst). cbn [fst].
  rewrite rendered_day. unfold Spec.day_label. fold n. split.
  - exists (JsString.padStart 3 Spec.zero n).
    split; [reflexivity | split; [apply padStart_length |]].
    exists (repeat Spec.zero (3 - List.length n)).
    split; [reflexivity |].
    apply Forall_forall. intros c Hc. now apply repeat_spec in Hc.
  - intros Hn. rewrite (padStart_long_enough 3 Spec.zero n Hn). reflexivity.
Qed.

End ReportDetails.

Lemma diagnosis_shown_verbatim_witness :
  ok 200 = true
  /\ ReportDocument (obj [("diagnosis", str " steady ")]%string) = true
  /\ dom (fst (App.ReportView
                 (Response 200
                    (Parsed (obj [("diagnosis", str " steady ")]%string)))
                 Sample.previous)) App.diagnosis
     = Text (lit " steady ").
Proof.
  split; [reflexivity | split; [reflexivity |]].
  apply (diagnosis_shown_verbatim 200%N
           [(lit "diagnosis", str " steady ")] Sample.previous); reflexivity.
Defined.

Lemma mandate_always_five_lines_witness :
  ok 200 = true
  /\ ReportDocument Sample.no_fields = true
  /\ dom (fst (App.ReportView (Response 200 (Parsed Sample.no_fields))
                 Sample.previous)) App.mandate
     = Text (JsString.join [10%N]
               [ lit "Compose:"; lit "Emotional axis:"; lit "Constraint(s):";
                 lit "Timebox: 8 hours"; lit "Deliverable:" ]).
Proof.
  split; [reflexivity | split; [reflexivity |]].
  apply (mandate_always_five_lines 200%N [] Sample.previous); reflexivity.
Defined.

Lemma agon_text_is_trimmed_witness :
  ok 200 = true
  /\ ReportDocument Sample.summary_and_empty_winner = true
  /\ exists t : jsstring,
       dom (fst (App.ReportView
                   (Response 200 (Parsed Sample.summary_and_empty_winner))
                   Sample.previous)) App.agon = Text t
       /\ forall c rest, t = c :: rest -> JsString.is_white c = false.
Proof.
  split; [reflexivity | split; [reflexivity |]].
  destruct (agon_text_is_trimmed 200%N
              [(lit "agon",
                obj [("summary", str "Close call"); ("winner", JStr [])]%string)]
              Sample.previous eq_refl eq_refl) as (t & Ht & Hfirst & _).
  exists t. split; [exact Ht | exact Hfirst].
Defined.

Lemma day_number_never_truncated_witness :
  ok 200 = true
  /\ ReportDocument (obj [("day_number", @JNum IntegerNumber 1000%Z)]%string)
     = true
  /\ (3 <= List.length (lit "1000"))%nat
  /\ dom (fst (App.ReportView
                 (Response 200
                    (Parsed (obj [("day_number",
                                   @JNum IntegerNumber 1000%Z)]%string)))
                 Sample.previous)) App.day
     = Text (lit "DAY 1000 " ++ [JsString.em_dash] ++ lit " ").
Proof.
  split; [reflexivity | split; [reflexivity | split; [cbn; lia |]]].
  apply (proj2 (day_number_never_truncated 200%N
                  [(lit "day_number", @JNum IntegerNumber 1000%Z)]
                  Sample.previous eq_refl eq_refl)).
  cbn; lia.
Defined.

(** ** Every outcome of the archive view *)

Section ArchiveOutcomes.
Context {Num : JsNumber}.
Import Archive.

(** X10. Whatever the response and whatever the page, the archive view
    returns normally and ends in one of two states: either the [try]
    block completed, the list region holds markup and nothing was
    logged, or it threw, the region holds the text
    ["Archive unavailable."] and exactly that error was logged. In both
    cases the content of the region does not depend on what it held
    before the load. *)
Theorem archive_view_outcomes (net : network) (p : Archive.page) :
  snd (ArchiveView net p) = Ok tt
  /\ ((exists markup : jsstring,
         snd (load net p) = Ok tt
         /\ dom (fst (ArchiveView net p)) list_el = Html markup
         /\ console (fst (ArchiveView net p)) = console p)
      \/ (exists e : exn,
            snd (load net p) = Throw e
            /\ dom (fst (ArchiveView net p)) list_el
               = Text (lit "Archive unavailable.")
            /\ console (fst (ArchiveView net p)) = e :: console p))
  /\ (forall p' : Archive.page,
        dom (fst (ArchiveView net p)) list_el
        = dom (fst (ArchiveView net p')) list_el).
Proof.
  unfold ArchiveView, try_catch, load, bind, fetch_json.
  destruct net as [|st [|j]].
  - split; [reflexivity | split; [right; now exists TypeError | reflexivity]].
  - destruct (ok st);
      (split; [reflexivity | split; [right; eexists; repeat split
                                    | reflexivity]]).
  - destruct (ok st).
    + cbn [ret]. unfold render, bind, lift.
      destruct (sorted_dates j) as [dates|e].
      * destruct (map_result entry dates) as [entries|e].
        -- split; [reflexivity | split; [left | reflexivity]].
           eexists. repeat split.
        -- split; [reflexivity | split; [right; now exists e | reflexivity]].
      * split; [reflexivity | split; [right; now exists e | reflexivity]].
    + split; [reflexivity | split; [right; eexists; repeat split
                                    | reflexivity]].
Qed.

(** X11. The archive view never renders a response with a status
    outside 200-299: the body is not read, the page and the log are the
    same whatever the body is, and the error logged is
    [Error("Fetch failed: " + status)]. *)
Theorem archive_fetch_errors (st : N) (b b' : body) (p : Archive.page) :
  ok st = false ->
  ArchiveView (Response st b) p = ArchiveView (Response st b') p
  /\ dom (fst (ArchiveView (Response st b) p)) list_el
     = Text (lit "Archive unavailable.")
  /\ console (fst (ArchiveView (Response st b) p))
     = Error (lit "Fetch failed: " ++ JsString.of_N st) :: console p.
Proof.
  intros Hst. unfold ArchiveView, try_catch, load, bind, fetch_json.
  rewrite Hst. repeat split.
Qed.

Lemma map_result_throws {A B : Type} (f : A -> result B) (l : list A) (x : A)
  (e : exn) :
  In x l -> f x = Throw e -> exists e' : exn, map_result f l = Throw e'.
Proof.
  intros Hin Hx. induction l as [|y l IH]; [contradiction |].
  cbn [map_result]. destruct (f y) as [b|e1] eqn:Fy; [| now exists e1].
  cbn [rbind]. destruct Hin as [-> | Hin]; [congruence |].
  destruct (IH Hin) as [e' ->]. now exists e'.
Qed.

Lemma map_result_length {A B : Type} (f : A -> result B) (l : list A)
  (ys : list B) :
  map_result f l = Ok ys -> List.length ys = List.length l.
Proof.
  revert ys. induction l as [|x l IH]; intros ys; cbn [map_result].
  - intros E. injection E as <-. reflexivity.
  - destruct (f x) as [y|e]; [| discriminate]. cbn [rbind].
    destruct (map_result f l) as [ys'|e]; [| discriminate]. cbn [rbind].
    intros E. injection E as <-. cbn. now rewrite (IH ys').
Qed.

Lemma values_of_combine {A B : Type} (ks : list A) (l : list B) :
  List.length ks = List.length l -> map snd (combine ks l) = l.
Proof.
  revert l. induction ks as [|k ks IH]; intros [|x l]; cbn; try discriminate;
    [reflexivity |].
  intros E. injection E as E. now rewrite (IH l E).
Qed.

(** What [sort()] returns is a rearrangement of the array. *)
Lemma call_sort_perm (l sorted : list json) :
  call_sort (JArr l) = Ok sorted -> Permutation l sorted.
Proof.
  unfold call_sort. destruct l as [|x [|y l']].
  - intros E. injection E as <-. reflexivity.
  - intros E. injection E as <-. reflexivity.
  - destruct (map_result ToString (x :: y :: l')) as [keys|e] eqn:K;
      [| discriminate].
    cbn [rbind]. intros E. injection E as <-.
    rewrite <- (values_of_combine keys (x :: y :: l')) at 1
      by (now apply map_result_length in K).
    apply Permutation_map, sort_by_key_perm.
Qed.

Lemma entry_needs_slice (x : json) :
  sliceable x = false -> entry x = Throw TypeError.
Proof. destruct x; try discriminate; reflexivity. Qed.

End ArchiveOutcomes.

(** ** The code-unit order is a total order *)

Lemma ltb_connected (a b : jsstring) :
  JsString.ltb a b = false -> JsString.ltb b a = false -> a = b.
Proof.
  revert b. induction a as [|x a IH]; intros [|y b]; simpl;
    try discriminate; [reflexivity |].
  intros H1 H2.
  apply orb_false_iff in H1. destruct H1 as [L1 R1].
  apply orb_false_iff in H2. destruct H2 as [L2 R2].
  apply N.ltb_ge in L1. apply N.ltb_ge in L2.
  assert (x = y) by lia. subst y.
  rewrite N.eqb_refl in R1, R2. simpl in R1, R2.
  f_equal. now apply IH.
Qed.

Lemma ltb_trans (a b c : jsstring) :
  JsString.ltb a b = true -> JsString.ltb b c = true ->
  JsString.ltb a c = true.
Proof.
  revert b c. induction a as [|x a IH]; intros [|y b] [|z c]; simpl;
    try discriminate; try reflexivity.
  intros H1 H2.
  apply orb_prop in H1. apply orb_prop in H2. apply orb_true_iff.
  destruct H1 as [H1 | H1], H2 as [H2 | H2].
  - left. apply N.ltb_lt in H1, H2. apply N.ltb_lt. lia.
  - apply andb_prop in H2. destruct H2 as [E _]. apply N.eqb_eq in E.
    subst z. now left.
  - apply andb_prop in H1. destruct H1 as [E _]. apply N.eqb_eq in E.
    subst y. now left.
  - apply andb_prop in H1. destruct H1 as [E1 L1].
    apply andb_prop in H2. destruct H2 as [E2 L2].
    apply N.eqb_eq in E1, E2. subst y z. right.
    rewrite N.eqb_refl. simpl. exact (IH b c L1 L2).
Qed.

Lemma leb_antisym (a b : jsstring) :
  JsString.leb a b = true -> JsString.leb b a = true -> a = b.
Proof.
  unfold JsString.leb. intros H1 H2.
  apply negb_true_iff in H1, H2. now apply ltb_connected.
Qed.

Lemma leb_trans (a b c : jsstring) :
  JsString.leb a b = true -> JsString.leb b c = true ->
  JsString.leb a c = true.
Proof.
  unfold JsString.leb. intros H1 H2.
  apply negb_true_iff in H1, H2. apply negb_true_iff.
  destruct (JsString.ltb c a) eqn:Hca; [| reflexivity].
  destruct (JsString.ltb a b) eqn:Hab.
  - now rewrite (ltb_trans c a b Hca Hab) in H2.
  - rewrite (ltb_connected a b Hab H1) in Hca. congruence.
Qed.

(** Two ascending arrangements of the same strings are equal. *)
Lemma ascending_unique (l1 l2 : list jsstring) :
  Spec.ascending l1 -> Spec.ascending l2 -> Permutation l1 l2 -> l1 = l2.
Proof.
  unfold Spec.ascending. intros S1 S2.
  apply Sorted_StronglySorted in S1; [| intros a b c; apply leb_trans].
  apply Sorted_StronglySorted in S2; [| intros a b c; apply leb_trans].
  revert l2 S2.
  induction S1 as [|a l1 S1 IH F1]; intros l2 S2 P.
  - now apply Permutation_nil in P.
  - destruct S2 as [|b l2 S2 F2].
    + symmetry in P. now apply Permutation_nil in P.
    + assert (a = b).
      { assert (Ha : In a (b :: l2))
          by (apply (Permutation_in _ P); now left).
        assert (Hb : In b (a :: l1))
          by (apply (Permutation_in _ (Permutation_sym P)); now left).
        destruct Ha as [<- | Ha]; [reflexivity |].
        destruct Hb as [<- | Hb]; [reflexivity |].
        apply leb_antisym.
        - exact (proj1 (Forall_forall _ _) F1 b Hb).
        - exact (proj1 (Forall_forall _ _) F2 a Ha). }
      subst b. f_equal. apply IH; [exact S2 |].
      exact (Permutation_cons_inv P).
Qed.

(** ** The archive on other inputs *)

Section ArchiveShapes.
Context {Num : JsNumber}.
Import Archive.

(** X12. The archive view ends on the failure path, showing
    ["Archive unavailable."], when the body is [null], when [dates] is
    truthy and is not an array (a string, for one), and when [dates] is
    an array with an element that has no [slice] method ([null], a
    number, a boolean or an object): no partial list is shown. *)
Theorem archive_unexpected_shapes :
  (forall (st : N) (p : Archive.page),
      ok st = true ->
      dom (fst (ArchiveView (Response st (Parsed JNull)) p)) list_el
      = Text (lit "Archive unavailable."))
  /\ (forall (st : N) (props : list (jsstring * json)) (v : json)
             (p : Archive.page),
      ok st = true ->
      assoc (lit "dates") props = Some v ->
      truthy (Some v) = true ->
      is_array v = false ->
      dom (fst (ArchiveView (Response st (Parsed (JObj props))) p)) list_el
      = Text (lit "Archive unavailable."))
  /\ (forall (st : N) (props : list (jsstring * json)) (l : list json)
             (x : json) (p : Archive.page),
      ok st = true ->
      assoc (lit "dates") props = Some (JArr l) ->
      In x l ->
      sliceable x = false ->
      dom (fst (ArchiveView (Response st (Parsed (JObj props))) p)) list_el
      = Text (lit "Archive unavailable.")).
Proof.
  split; [| split].
  - intros st p Hst.
    unfold ArchiveView, try_catch, load, bind, fetch_json. rewrite Hst.
    reflexivity.
  - intros st props v p Hst Hv Ht Ha.
    unfold ArchiveView, try_catch, load, bind, fetch_json. rewrite Hst.
    cbn [ret]. unfold render, bind, lift, sorted_dates, get, prop.
    rewrite Hv. cbn [rbind]. unfold truthy_or. rewrite Ht.
    destruct v; try discriminate; reflexivity.
  - intros st props l x p Hst Hl Hin Hx.
    unfold ArchiveView, try_catch, load, bind, fetch_json. rewrite Hst.
    cbn [ret]. unfold render, bind, lift, sorted_dates, get, prop.
    rewrite Hl. cbn [rbind truthy_or truthy call_slice_all].
    destruct (call_sort (JArr l)) as [sorted|e] eqn:S; [| reflexivity].
    cbn [rbind].
    assert (Hin' : In x (rev sorted)).
    { apply in_rev. rewrite rev_involutive.
      exact (Permutation_in _ (call_sort_perm l sorted S) Hin). }
    destruct (map_result_throws entry (rev sorted) x TypeError Hin'
                (entry_needs_slice x Hx)) as [e' ->].
    reflexivity.
Qed.

(** X13. The list shown depends on which dates the index holds, not on
    their order in the index: two indexes whose [dates] are
    rearrangements of one another give the same list. *)
Theorem archive_order_independent (st : N)
  (props props' : list (jsstring * json)) (p : Archive.page) :
  ok st = true ->
  ArchiveIndex (JObj props) = true ->
  ArchiveIndex (JObj props') = true ->
  Permutation (texts_of (assoc (lit "dates") props))
    (texts_of (assoc (lit "dates") props')) ->
  dom (fst (ArchiveView (Response st (Parsed (JObj props))) p)) list_el
  = dom (fst (ArchiveView (Response st (Parsed (JObj props'))) p)) list_el.
Proof.
  intros Hst H1 H2 P.
  destruct (ArchiveView_shaped st props p Hst H1) as (a1 & P1 & S1 & ->).
  destruct (ArchiveView_shaped st props' p Hst H2) as (a2 & P2 & S2 & ->).
  assert (a1 = a2) as ->; [| reflexivity].
  apply ascending_unique; [exact S1 | exact S2 |].
  rewrite P1, P. symmetry. exact P2.
Qed.

(** X14. For a date string made of four units, one separator, two
    units and anything after, line 11 builds the target
    [reports/<the four>/<the two>/<the date>.json]. For a string of at
    most four units the year part is the whole string and the month
    part is empty: [slice] past the end gives the empty string, not an
    error. *)
Theorem archive_target_of_date :
  (forall (year month rest : jsstring) (sep : JsString.code_unit),
      List.length year = 4%nat ->
      List.length month = 2%nat ->
      href (JStr (year ++ [sep] ++ month ++ rest))
      = Ok (lit "reports/" ++ year ++ lit "/" ++ month ++ lit "/"
            ++ (year ++ [sep] ++ month ++ rest) ++ lit ".json"))
  /\ (forall d : jsstring,
      (List.length d <= 4)%nat ->
      href (JStr d)
      = Ok (lit "reports/" ++ d ++ lit "//" ++ d ++ lit ".json")).
Proof.
  split.
  - intros year month rest sep Hy Hm.
    destruct year as [|a [|b [|c [|d [|? ?]]]]]; try discriminate.
    destruct month as [|e [|f [|? ?]]]; try discriminate.
    reflexivity.
  - intros d Hd.
    destruct d as [|a [|b [|c [|d [|? ?]]]]]; cbn in Hd; try lia;
      reflexivity.
Qed.

End ArchiveShapes.

Lemma archive_fetch_errors_witness :
  ok 503 = false
  /\ console (fst (Archive.ArchiveView (Response 503 (Parsed Sample.two_dates))
                     Sample.previous_archive))
     = [Error (lit "Fetch failed: 503")].
Proof.
  split; [reflexivity |].
  apply (archive_fetch_errors 503%N (Parsed Sample.two_dates) Malformed
           Sample.previous_archive).
  reflexivity.
Defined.

Lemma archive_unexpected_shapes_witness :
  ok 200 = true
  /\ In JNull [str "2026-02-08"; JNull]
  /\ sliceable (@JNull IntegerNumber) = false
  /\ dom (fst (Archive.ArchiveView
                 (Response 200
                    (Parsed (JObj [(lit "dates",
                                    JArr [str "2026-02-08"; JNull])])))
                 Sample.previous_archive)) Archive.list_el
     = Text (lit "Archive unavailable.").
Proof.
  split; [reflexivity | split; [right; left; reflexivity
                              | split; [reflexivity |]]].
  apply (proj2 (proj2 archive_unexpected_shapes) 200%N
           [(lit "dates", JArr [str "2026-02-08"; JNull])]
           [str "2026-02-08"; JNull] JNull Sample.previous_archive);
    [reflexivity | reflexivity | right; left; reflexivity | reflexivity].
Defined.

Lemma archive_order_independent_witness :
  ok 200 = true
  /\ ArchiveIndex Sample.two_dates = true
  /\ dom (fst (Archive.ArchiveView (Response 200 (Parsed Sample.two_dates))
                 Sample.previous_archive)) Archive.list_el
     = dom (fst (Archive.ArchiveView
                   (Response 200
                      (Parsed (JObj [(lit "dates",
                                      JArr [str "2026-01-01";
                                            str "2026-02-08"])])))
                   Sample.previous_archive)) Archive.list_el.
Proof.
  split; [reflexivity | split; [reflexivity |]].
  apply (archive_order_independent 200%N
           [(lit "dates", JArr [str "2026-02-08"; str "2026-01-01"])]
           [(lit "dates", JArr [str "2026-01-01"; str "2026-02-08"])]
           Sample.previous_archive); [reflexivity | reflexivity | reflexivity |].
  apply perm_swap.
Defined.

Lemma archive_target_of_date_witness :
  List.length (lit "2026") = 4%nat
  /\ List.length (lit "02") = 2%nat
  /\ Archive.href (str "2026-02-08")
     = Ok (lit "reports/2026/02/2026-02-08.json").
Proof.
  split; [reflexivity | split; [reflexivity |]].
  apply (proj1 archive_target_of_date (lit "2026") (lit "02") (lit "-08")
           45%N); reflexivity.
Defined.

(** ** The cache-busting parameter *)

Lemma lit_injective (s s' : string) : lit s = lit s' -> s = s'.
Proof.
  unfold JsString.lit. intros E.
  assert (L : list_ascii_of_string s = list_ascii_of_string s').
  { revert E. generalize (list_ascii_of_string s) (list_ascii_of_string s').
    induction l as [|a l IH]; intros [|b l']; cbn; try discriminate;
      [reflexivity |].
    intros E. injection E as Eab El.
    apply (f_equal ascii_of_N) in Eab. rewrite !ascii_N_embedding in Eab.
    subst b. f_equal. now apply IH. }
  rewrite <- (string_of_list_ascii_of_string s),
          <- (string_of_list_ascii_of_string s').
  now rewrite L.
Qed.

Lemma to_uint_not_nil (n : N) : N.to_uint n <> Decimal.Nil.
Proof.
  destruct n as [|q]; cbn; [discriminate |].
  apply DecimalPos.Unsigned.to_uint_nonnil.
Qed.

(** The decimal text of a number determines the number. *)
Lemma of_N_injective (a b : N) : JsString.of_N a = JsString.of_N b -> a = b.
Proof.
  unfold JsString.of_N. intros E. apply lit_injective in E.
  apply DecimalN.Unsigned.to_uint_inj.
  pose proof (NilZero.usu (N.to_uint a) (to_uint_not_nil a)) as Ua.
  pose proof (NilZero.usu (N.to_uint b) (to_uint_not_nil b)) as Ub.
  rewrite E in Ua. rewrite Ua in Ub. now injection Ub.
Qed.

Lemma report_urls_differ (a b : N) :
  a <> b ->
  Request.url (Request.report_request a) <> Request.url (Request.report_request b).
Proof.
  intros Hab E. unfold Request.report_request in E. cbn [Request.url] in E.
  apply app_inv_head in E. now apply of_N_injective in E.
Qed.

Lemma archive_urls_differ (a b : N) :
  a <> b ->
  Request.url (Request.archive_request a)
  <> Request.url (Request.archive_request b).
Proof.
  intros Hab E. unfold Request.archive_request in E. cbn [Request.url] in E.
  apply app_inv_head in E. now apply of_N_injective in E.
Qed.

Lemma eqb_differ (x y : jsstring) : x <> y -> JsString.eqb x y = false.
Proof.
  intros H. destruct (JsString.eqb x y) eqn:E; [| reflexivity].
  now apply eqb_eq in E.
Qed.

(** X15. The [bust] parameter does its work. A cache that holds a
    response under the URL a view requested at one instant does not
    answer the same view at any other instant: the view renders what
    the network sends. Requests of one view at different instants have
    different URLs, and a request of the report view never has the URL
    of a request of the archive view. *)
Theorem cache_busting_urls_differ :
  (forall (Num : JsNumber) (a b : N) (stored fresh : network) (p : App.page),
      a <> b ->
      ReportView_at b
        (cached (Request.url (Request.report_request a)) stored fresh) p
      = App.ReportView fresh p)
  /\ (forall (Num : JsNumber) (a b : N) (stored fresh : network)
             (p : Archive.page),
      a <> b ->
      ArchiveView_at b
        (cached (Request.url (Request.archive_request a)) stored fresh) p
      = Archive.ArchiveView fresh p)
  /\ (forall a b : N,
      a <> b ->
      Request.url (Request.report_request a)
      <> Request.url (Request.report_request b))
  /\ (forall a b : N,
      a <> b ->
      Request.url (Request.archive_request a)
      <> Request.url (Request.archive_request b))
  /\ (forall a b : N,
      Request.url (Request.report_request a)
      <> Request.url (Request.archive_request b)).
Proof.
  split; [| split; [| split; [| split]]].
  - intros Num a b stored fresh p Hab. unfold ReportView_at, cached.
    rewrite eqb_differ; [reflexivity |].
    apply report_urls_differ. congruence.
  - intros Num a b stored fresh p Hab. unfold ArchiveView_at, cached.
    rewrite eqb_differ; [reflexivity |].
    apply archive_urls_differ. congruence.
  - exact report_urls_differ.
  - exact archive_urls_differ.
  - intros a b E. unfold Request.report_request, Request.archive_request in E.
    cbn in E. discriminate E.
Qed.

Lemma cache_busting_urls_differ_witness :
  1700000000000%N <> 1700000000001%N
  /\ ReportView_at 1700000000001
       (cached (Request.url (Request.report_request 1700000000000))
          (Response 200 (Parsed Sample.no_fields))
          (Response 200 (Parsed Sample.day_three)))
       Sample.previous
     = App.ReportView (Response 200 (Parsed Sample.day_three)) Sample.previous.
Proof.
  split; [discriminate |].
  apply (proj1 cache_busting_urls_differ IntegerNumber
           1700000000000%N 1700000000001%N).
  discriminate.
Defined.

(** ** The day label after a failed load *)

Section DayLabel.
Context {Num : JsNumber}.
Import App.

Lemma render_day_cases (j : json) (p : App.page) :
  (exists e : exn, render_day j p = (p, Throw e))
  \/ (exists n d : jsstring,
        rbind (get (Some j) (lit "day_number")) text_or_empty = Ok n
        /\ rbind (get (Some j) (lit "date")) text_or_empty = Ok d
        /\ render_day j p
           = (put region_eqb day
                (Text (lit "DAY " ++ JsString.padStart 3 48%N n
                       ++ lit " " ++ [JsString.em_dash] ++ lit " " ++ d)) p,
              Ok tt)).
Proof.
  unfold render_day, bind, lift.
  destruct (get (Some j) (lit "day_number")) as [dn|e]; [| left; now exists e].
  cbn [rbind].
  destruct (text_or_empty dn) as [n|e]; [| left; now exists e].
  destruct (get (Some j) (lit "date")) as [dt|e]; [| left; now exists e].
  cbn [rbind].
  destruct (text_or_empty dt) as [d|e]; [| left; now exists e].
  right. exists n, d. repeat split.
Qed.

Lemma after_day_keeps_day (j : json) :
  keeps day
    (bind (render_diagnosis j) (fun _ =>
     bind (render_agon j) (fun _ =>
     bind (render_mandate j) (fun _ =>
     bind (render_artifact j) (fun _ => render_build j))))).
Proof.
  unfold render_diagnosis, render_agon, render_mandate, render_artifact,
    render_build.
  repeat first
    [ apply keeps_lift | apply keeps_ret
    | apply keeps_textContent; reflexivity
    | apply keeps_innerHTML; reflexivity
    | apply keeps_if
    | apply keeps_bind; [| intros ? ] ].
Qed.

(** X16. The day label is the only region that a failed load can leave
    with data of the response: when the [try] block throws, the day
    region holds either what it held before the load (the throw came
    before line 16 completed) or the label of the document that failed
    to render, made by line 16 from its day number and its date. *)
Theorem failed_load_day_label (net : network) (p q : App.page) (e : exn) :
  load net p = (q, Throw e) ->
  dom (fst (ReportView net p)) day = dom p day
  \/ exists (st : N) (j : json) (n d : jsstring),
       net = Response st (Parsed j)
       /\ rbind (get (Some j) (lit "day_number")) text_or_empty = Ok n
       /\ rbind (get (Some j) (lit "date")) text_or_empty = Ok d
       /\ dom (fst (ReportView net p)) day
          = Text (lit "DAY " ++ JsString.padStart 3 48%N n
                  ++ lit " " ++ [JsString.em_dash] ++ lit " " ++ d).
Proof.
  intros L. rewrite (caught net p q e L).
  change (dom (fst (cleared e q, Ok tt)) day) with (dom q day).
  revert L. unfold load, bind at 1, fetch_json.
  destruct net as [|st [|j]].
  - intros E. injection E as <- _. now left.
  - destruct (ok st); intros E; injection E as <- _; now left.
  - destruct (ok st); [| intros E; injection E as <- _; now left].
    cbn [ret].
    unfold render, bind at 1. cbn [textContent set_textContent write].
    set (p1 := put region_eqb status (Text []) p).
    unfold bind at 1.
    destruct (render_day_cases j p1) as [[e1 D] | (n & d & Hn & Hd & D)];
      rewrite D.
    + intros E. injection E as <- _. now left.
    + intros E. right. exists st, j, n, d.
      split; [reflexivity | split; [exact Hn | split; [exact Hd |]]].
      pose proof (after_day_keeps_day j
                    (put region_eqb day
                       (Text (lit "DAY " ++ JsString.padStart 3 48%N n
                              ++ lit " " ++ [JsString.em_dash] ++ lit " " ++ d))
                       p1)) as K.
      rewrite E in K. exact K.
Qed.

End DayLabel.

Lemma failed_load_day_label_witness :
  App.load (Response 200 (Parsed Sample.constraints_as_text)) Sample.previous
  = (fst (App.load (Response 200 (Parsed Sample.constraints_as_text))
            Sample.previous), Throw TypeError)
  /\ dom (fst (App.ReportView (Response 200 (Parsed Sample.constraints_as_text))
                 Sample.previous)) App.day
     <> dom Sample.previous App.day
  /\ exists (st : N) (j : json) (n d : jsstring),
       Response 200 (Parsed Sample.constraints_as_text) = Response st (Parsed j)
       /\ rbind (get (Some j) (lit "day_number")) App.text_or_empty = Ok n
       /\ rbind (get (Some j) (lit "date")) App.text_or_empty = Ok d
       /\ dom (fst (App.ReportView
                      (Response 200 (Parsed Sample.constraints_as_text))
                      Sample.previous)) App.day
          = Text (lit "DAY " ++ JsString.padStart 3 48%N n
                  ++ lit " " ++ [JsString.em_dash] ++ lit " " ++ d).
Proof.
  assert (L : App.load (Response 200 (Parsed Sample.constraints_as_text))
                Sample.previous
              = (fst (App.load (Response 200 (Parsed Sample.constraints_as_text))
                        Sample.previous), Throw TypeError))
    by reflexivity.
  assert (D : dom (fst (App.ReportView
                          (Response 200 (Parsed Sample.constraints_as_text))
                          Sample.previous)) App.day
              <> dom Sample.previous App.day)
    by (vm_compute; discriminate).
  split; [exact L | split; [exact D |]].
  destruct (failed_load_day_label
              (Response 200 (Parsed Sample.constraints_as_text))
              Sample.previous _ TypeError L) as [Same | Label].
  - contradiction.
  - exact Label.
Defined.

(** ** Markup that holds plain strings *)

Lemma tokenize_run (st st' : Html.state) (pre rest : jsstring)
  (tokens : list Html.token) :
  Html.run st pre = Some (tokens, st') ->
  Html.tokenize st (pre ++ rest)
  = option_map (app tokens) (Html.tokenize st' rest).
Proof.
  revert st tokens. induction pre as [|c pre IH]; intros st tokens.
  - cbn. intros E. injection E as E1 E2. subst tokens st'.
    now destruct (Html.tokenize st rest).
  - cbn [Html.run app Html.tokenize].
    destruct (Html.step st c) as [[emitted st1]|]; [| discriminate].
    destruct (Html.run st1 pre) as [[more st2]|] eqn:R; [| discriminate].
    intros E. injection E as E1 E2. subst tokens st2.
    rewrite (IH st1 more R).
    destruct (Html.tokenize st' rest); cbn; [| reflexivity].
    now rewrite app_assoc.
Qed.

Lemma run_text (text s : jsstring) :
  forallb Html.text_unit s = true ->
  Html.run (Html.Data text) s = Some ([], Html.Data (text ++ s)).
Proof.
  revert text. induction s as [|c s IH]; intros text H.
  - cbn. now rewrite app_nil_r.
  - apply andb_prop in H. destruct H as [Hc Hs].
    cbn [Html.run Html.step]. rewrite Hc.
    replace (c =? 60)%N with false.
    + rewrite (IH (text ++ [c]) Hs), <- app_assoc. reflexivity.
    + unfold Html.text_unit in Hc. apply negb_true_iff in Hc.
      now destruct (c =? 60)%N.
Qed.

Lemma run_value (tag : jsstring) (attrs : list (jsstring * jsstring))
  (name value v : jsstring) :
  forallb Html.value_unit v = true ->
  Html.run (Html.AttributeValue tag attrs name value) v
  = Some ([], Html.AttributeValue tag attrs name (value ++ v)).
Proof.
  revert value. induction v as [|c v IH]; intros value H.
  - cbn. now rewrite app_nil_r.
  - apply andb_prop in H. destruct H as [Hc Hv].
    cbn [Html.run Html.step]. rewrite Hc.
    replace (c =? 34)%N with false.
    + rewrite (IH (value ++ [c]) Hv), <- app_assoc. reflexivity.
    + unfold Html.value_unit in Hc. apply negb_true_iff in Hc.
      now destruct (c =? 34)%N.
Qed.

Lemma markup_free_text (s : jsstring) :
  Html.markup_free s = true -> forallb Html.text_unit s = true.
Proof.
  unfold Html.markup_free. induction s as [|c s IH]; [reflexivity |].
  cbn [forallb]. intros H. apply andb_prop in H. destruct H as [Hc Hs].
  apply andb_prop in Hc. destruct Hc as [-> _]. now apply IH.
Qed.

Lemma markup_free_value (s : jsstring) :
  Html.markup_free s = true -> forallb Html.value_unit s = true.
Proof.
  unfold Html.markup_free. induction s as [|c s IH]; [reflexivity |].
  cbn [forallb]. intros H. apply andb_prop in H. destruct H as [Hc Hs].
  apply andb_prop in Hc. destruct Hc as [_ ->]. now apply IH.
Qed.

Lemma forallb_firstn {A : Type} (f : A -> bool) (n : nat) (l : list A) :
  forallb f l = true -> forallb f (firstn n l) = true.
Proof.
  revert l. induction n as [|n IH]; intros [|x l]; cbn; try reflexivity.
  intros H. apply andb_prop in H. destruct H as [-> Hl]. now apply IH.
Qed.

Lemma forallb_skipn {A : Type} (f : A -> bool) (n : nat) (l : list A) :
  forallb f l = true -> forallb f (skipn n l) = true.
Proof.
  revert l. induction n as [|n IH]; intros [|x l]; cbn; try reflexivity;
    [trivial |].
  intros H. apply andb_prop in H. destruct H as [_ Hl]. now apply IH.
Qed.

Lemma forallb_slice {A : Type} (f : A -> bool) (i j : nat) (l : list A) :
  forallb f l = true -> forallb f (JsString.slice i j l) = true.
Proof.
  intros H. unfold JsString.slice. now apply forallb_firstn, forallb_skipn.
Qed.

(** The tokens of an anchor's start tag with a plain [href], from the
    data state: [pre] is the markup up to the opening quote, [post]
    what follows the closing quote. *)
Lemma tokenize_around_value (pre value post : jsstring)
  (tokens more : list Html.token) (tag name : jsstring) :
  forallb Html.value_unit value = true ->
  Html.run (Html.Data []) pre
  = Some (tokens, Html.AttributeValue tag [] name []) ->
  Html.tokenize (Html.AfterAttributeValue tag [(name, value)]) post
  = Some more ->
  Html.tokenize (Html.Data []) (pre ++ value ++ JsString.dquote :: post)
  = Some (tokens ++ more).
Proof.
  intros Hv Hpre Hpost.
  rewrite (tokenize_run _ _ pre _ tokens Hpre).
  rewrite (tokenize_run _ _ value _ [] (run_value tag [] name [] value Hv)).
  cbn [Html.tokenize Html.step app]. cbn [N.eqb Pos.eqb JsString.dquote].
  unfold JsString.dquote. cbn [Html.tokenize Html.step N.eqb Pos.eqb app].
  rewrite Hpost. reflexivity.
Qed.

(** The markup of line 36 of [app.js] around a plain url is the text
    ["DONE — "] and one link to the url, labelled ["Open"]. *)
Lemma parse_done_markup (url : jsstring) :
  Html.markup_free url = true ->
  Html.parse (App.done_markup url)
  = Some [ Html.TextNode (lit "DONE " ++ [JsString.em_dash] ++ lit " ");
           Html.link url (lit "Open") ].
Proof.
  intros H. apply markup_free_value in H. unfold Html.parse.
  assert (E : App.done_markup url
              = (lit "DONE " ++ [JsString.em_dash] ++ lit " <a href="
                 ++ [JsString.dquote])
                ++ url ++ JsString.dquote :: lit ">Open</a>")
    by reflexivity.
  rewrite E.
  rewrite (tokenize_around_value _ url (lit ">Open</a>")
             [Html.Chars (lit "DONE " ++ [JsString.em_dash] ++ lit " ")]
             [Html.StartTag (lit "a") [(lit "href", url)];
              Html.Chars (lit "Open"); Html.EndTag (lit "a")]
             (lit "a") (lit "href") H);
    [| vm_compute; reflexivity | vm_compute; reflexivity].
  vm_compute. reflexivity.
Qed.

(** One entry of line 12 of [archive.js], with a plain target and a
    plain label that is not empty, gives the tokens of a [div] holding
    one link, and leaves the tokenizer where it started. *)
Lemma tokenize_entry (target label rest : jsstring) :
  forallb Html.value_unit target = true ->
  forallb Html.text_unit label = true ->
  label <> [] ->
  Html.tokenize (Html.Data []) (Archive.entry_markup target label ++ rest)
  = option_map
      (app [ Html.StartTag (lit "div") [];
             Html.StartTag (lit "a") [(lit "href", target)];
             Html.Chars label;
             Html.EndTag (lit "a");
             Html.EndTag (lit "div") ])
      (Html.tokenize (Html.Data []) rest).
Proof.
  intros Ht Hl Hne. unfold Archive.entry_markup.
  rewrite <- !app_assoc.
  rewrite (app_assoc (lit "<div><a href=") [JsString.dquote]).
  rewrite (tokenize_run (Html.Data [])
             (Html.AttributeValue (lit "a") [] (lit "href") [])
             _ _ [Html.StartTag (lit "div") []])
    by (vm_compute; reflexivity).
  rewrite (tokenize_run _ _ target _ []
             (run_value (lit "a") [] (lit "href") [] target Ht)).
  rewrite (app_assoc [JsString.dquote] (lit ">")).
  rewrite (tokenize_run _ (Html.Data []) ([JsString.dquote] ++ lit ">") _
             [Html.StartTag (lit "a") [(lit "href", target)]])
    by (vm_compute; reflexivity).
  rewrite (tokenize_run _ _ label _ [] (run_text [] label Hl)).
  destruct label as [|c label]; [contradiction |].
  rewrite (tokenize_run _ (Html.Data []) (lit "</a></div>") _
             [Html.Chars (c :: label); Html.EndTag (lit "a");
              Html.EndTag (lit "div")])
    by (vm_compute; reflexivity).
  destruct (Html.tokenize (Html.Data []) rest); reflexivity.
Qed.

Lemma build_entry (target label : jsstring) (tokens : list Html.token)
  (current : list Html.node) :
  Html.build
    ([ Html.StartTag (lit "div") [];
       Html.StartTag (lit "a") [(lit "href", target)];
       Html.Chars label;
       Html.EndTag (lit "a");
       Html.EndTag (lit "div") ] ++ tokens) [] current
  = Html.build tokens []
      (current ++ [Html.Element (lit "div") [] [Html.link target label]]).
Proof. reflexivity. Qed.

(** An ISO date is ten plain units. *)
Lemma digit_plain (c : JsString.code_unit) :
  Html.digit c = true -> Html.text_unit c && Html.value_unit c = true.
Proof.
  unfold Html.digit, Html.text_unit, Html.value_unit. intros H.
  apply andb_prop in H. destruct H as [L U].
  apply N.leb_le in L. apply N.leb_le in U.
  repeat match goal with
         | |- context [(c =? ?k)%N] =>
             replace (c =? k)%N with false
               by (symmetry; apply N.eqb_neq; lia)
         end.
  reflexivity.
Qed.

Lemma hyphen_plain (c : JsString.code_unit) :
  (c =? 45)%N = true -> Html.text_unit c && Html.value_unit c = true.
Proof. intros H. apply N.eqb_eq in H. now subst c. Qed.

Lemma iso_date_plain (d : jsstring) :
  iso_date d = true -> Html.markup_free d = true /\ d <> [].
Proof.
  unfold iso_date.
  destruct d as [|y1 [|y2 [|y3 [|y4 [|h1 [|m1 [|m2 [|h2 [|d1 [|d2 [|? ?]]]]]]]]]]];
    try discriminate.
  intros H. do 9 (apply andb_prop in H; destruct H as [H ?]).
  split; [| discriminate].
  unfold Html.markup_free. cbn [forallb].
  repeat match goal with
         | D : Html.digit ?c = true |- _ => rewrite (digit_plain c D); clear D
         | E : (?c =? 45)%N = true |- _ => rewrite (hyphen_plain c E); clear E
         end.
  reflexivity.
Qed.

(** The target of an entry with a plain date is a plain value. *)
Lemma archive_target_plain (d : jsstring) :
  Html.markup_free d = true ->
  forallb Html.value_unit (Spec.archive_target d) = true.
Proof.
  intros H. apply markup_free_value in H. unfold Spec.archive_target.
  rewrite !forallb_app, !forallb_slice, H by exact H. reflexivity.
Qed.

Lemma parse_archive_list (dates : list jsstring) :
  forallb iso_date dates = true ->
  Html.parse (List.concat (map Spec.archive_link dates))
  = Some (map (fun d =>
                 Html.Element (lit "div") []
                   [Html.link (Spec.archive_target d) d]) dates).
Proof.
  intros H. unfold Html.parse.
  assert (T : forall current,
             match Html.tokenize (Html.Data [])
                     (List.concat (map Spec.archive_link dates)) with
             | Some tokens => Html.build tokens [] current
             | None => None
             end
             = Some (current
                     ++ map (fun d =>
                               Html.Element (lit "div") []
                                 [Html.link (Spec.archive_target d) d]) dates)).
  { induction dates as [|d dates IH]; intros current.
    - cbn. now rewrite app_nil_r.
    - cbn [forallb] in H. apply andb_prop in H. destruct H as [Hd Hs].
      destruct (iso_date_plain d Hd) as [Hfree Hne].
      cbn [map List.concat]. unfold Spec.archive_link at 1.
      rewrite (tokenize_entry _ _ _ (archive_target_plain d Hfree)
                 (markup_free_text d Hfree) Hne).
      specialize (IH Hs).
      destruct (Html.tokenize (Html.Data [])
                  (List.concat (map Spec.archive_link dates))) as [tokens|].
      + cbn [option_map]. rewrite build_entry, IH, <- app_assoc. reflexivity.
      + specialize (IH []). discriminate. }
  exact (T []).
Qed.

Section DatedIndexes.
Context {Num : JsNumber}.

Lemma iso_dates_texts (v : value) :
  optional is_iso_dates v = true ->
  optional is_texts v = true /\ forallb iso_date (texts_of v) = true.
Proof.
  destruct v as [[| | | |elems|]|]; cbn; intros H; try discriminate;
    try (now split).
  induction elems as [|e elems IH]; [now split |].
  cbn [forallb] in H. apply andb_prop in H. destruct H as [He Hs].
  destruct e; try discriminate. destruct (IH Hs) as [I1 I2].
  cbn. now rewrite He, I1, I2.
Qed.

Lemma dated_index (props : list (jsstring * json)) :
  DatedIndex (JObj props) = true ->
  ArchiveIndex (JObj props) = true
  /\ forallb iso_date (texts_of (assoc (lit "dates") props)) = true.
Proof.
  unfold DatedIndex, ArchiveIndex, object_of, field. apply iso_dates_texts.
Qed.

End DatedIndexes.

(** ** The artifact region, the mandate block and the archive list *)

(** C3. For a successful response carrying a report document: if
    [artifact.status] is exactly ["DONE"] and [artifact.url] is present,
    is not the empty string and holds none of the units that markup
    gives a meaning to (the double quote, [&], [<], NUL, CR), the
    artifact region shows the text ["DONE — "] followed by a link whose
    target is the url and whose label is ["Open"]; if the status is
    another value, or the url is absent or empty, or there is no
    artifact, the region shows exactly the text ["PENDING"]. *)
Theorem artifact_link_or_pending :
  (forall (Num : JsNumber) (st : N) (props : list (jsstring * json))
          (p : App.page),
      ok st = true ->
      ReportDocument (JObj props) = true ->
      (strict_eq_str (sub props "artifact" "status") (lit "DONE") = true ->
       filled (sub props "artifact" "url") = true ->
       Html.markup_free (text_of (sub props "artifact" "url")) = true ->
       Html.nodes_of
         (dom (fst (App.ReportView (Response st (Parsed (JObj props))) p))
            App.artifact)
       = Some [ Html.TextNode (lit "DONE " ++ [JsString.em_dash] ++ lit " ");
                Html.Element (lit "a")
                  [(lit "href", text_of (sub props "artifact" "url"))]
                  [Html.TextNode (lit "Open")] ])
      /\ (strict_eq_str (sub props "artifact" "status") (lit "DONE")
          && filled (sub props "artifact" "url") = false ->
          dom (fst (App.ReportView (Response st (Parsed (JObj props))) p))
            App.artifact = Text (lit "PENDING")
          /\ Html.nodes_of
               (dom (fst (App.ReportView (Response st (Parsed (JObj props))) p))
                  App.artifact)
             = Some [Html.TextNode (lit "PENDING")]))
  /\ (forall p : App.page,
      Html.nodes_of
        (dom (fst (App.ReportView (Response 200 (Parsed Sample.done_with_url)) p))
           App.artifact)
      = Some [ Html.TextNode (lit "DONE " ++ [JsString.em_dash] ++ lit " ");
               Html.Element (lit "a") [(lit "href", lit "x.html")]
                 [Html.TextNode (lit "Open")] ])
  /\ (forall p : App.page,
      dom (fst (App.ReportView (Response 200 (Parsed Sample.pending)) p))
        App.artifact = Text (lit "PENDING"))
  /\ (forall p : App.page,
      dom (fst (App.ReportView (Response 200 (Parsed Sample.no_fields)) p))
        App.artifact = Text (lit "PENDING")).
Proof.
  split; [| split; [| split]].
  - intros Num st props p Hst Hdoc.
    rewrite (ReportView_shaped props Hdoc st p Hst). cbn [fst].
    rewrite rendered_artifact. unfold Spec.artifact_shown. split.
    + intros -> -> Hfree. cbn [andb Html.nodes_of].
      exact (parse_done_markup _ Hfree).
    + intros ->. split; reflexivity.
  - intros p. vm_compute. reflexivity.
  - intros p. reflexivity.
  - intros p. reflexivity.
Qed.

Lemma artifact_link_or_pending_witness :
  ok 200 = true
  /\ ReportDocument Sample.done_with_url = true
  /\ Html.markup_free (lit "x.html") = true
  /\ Html.nodes_of
       (dom (fst (App.ReportView (Response 200 (Parsed Sample.done_with_url))
                    Sample.previous)) App.artifact)
     = Some [ Html.TextNode (lit "DONE " ++ [JsString.em_dash] ++ lit " ");
              Html.link (lit "x.html") (lit "Open") ].
Proof.
  split; [reflexivity | split; [reflexivity | split; [reflexivity |]]].
  apply (proj1 (proj1 artifact_link_or_pending IntegerNumber 200%N
                  [(lit "artifact",
                    obj [("status", str "DONE"); ("url", str "x.html")]%string)]
                  Sample.previous eq_refl eq_refl)); reflexivity.
Defined.

(** C3 as it is worded fails in two ways. With status ["DONE"] and the
    url the empty string (present, empty) the region shows ["PENDING"],
    not a link. With status ["DONE"] and a url that holds double quotes
    the region shows an anchor whose target is the part of the url
    before the first quote, the rest having become another attribute:
    not a link whose target is the url. *)
Lemma artifact_link_counterexample :
  (ReportDocument Sample.done_with_empty_url = true
   /\ strict_eq_str
        (opt_get (prop Sample.done_with_empty_url (lit "artifact"))
           (lit "status")) (lit "DONE") = true
   /\ present
        (opt_get (prop Sample.done_with_empty_url (lit "artifact")) (lit "url"))
      = true
   /\ Html.nodes_of
        (dom (fst (App.ReportView
                     (Response 200 (Parsed Sample.done_with_empty_url))
                     Sample.previous)) App.artifact)
      = Some [Html.TextNode (lit "PENDING")]
   /\ Html.nodes_of
        (dom (fst (App.ReportView
                     (Response 200 (Parsed Sample.done_with_empty_url))
                     Sample.previous)) App.artifact)
      <> Some [ Html.TextNode (lit "DONE " ++ [JsString.em_dash] ++ lit " ");
                Html.link [] (lit "Open") ])
  /\ (ReportDocument Hostile.done_with_quoted_url = true
      /\ strict_eq_str
           (opt_get (prop Hostile.done_with_quoted_url (lit "artifact"))
              (lit "status")) (lit "DONE") = true
      /\ opt_get (prop Hostile.done_with_quoted_url (lit "artifact")) (lit "url")
         = Some (JStr Hostile.quoted_url)
      /\ Html.nodes_of
           (dom (fst (App.ReportView
                        (Response 200 (Parsed Hostile.done_with_quoted_url))
                        Sample.previous)) App.artifact)
         = Some [ Html.TextNode (lit "DONE " ++ [JsString.em_dash] ++ lit " ");
                  Html.Element (lit "a")
                    [(lit "href", lit "x"); (lit "id", lit "y")]
                    [Html.TextNode (lit "Open")] ]
      /\ Html.nodes_of
           (dom (fst (App.ReportView
                        (Response 200 (Parsed Hostile.done_with_quoted_url))
                        Sample.previous)) App.artifact)
         <> Some [ Html.TextNode (lit "DONE " ++ [JsString.em_dash] ++ lit " ");
                   Html.link Hostile.quoted_url (lit "Open") ]).
Proof.
  split.
  - repeat split. vm_compute. discriminate.
  - split; [reflexivity | split; [reflexivity | split; [reflexivity |]]].
    split; [vm_compute; reflexivity | vm_compute; discriminate].
Qed.

(** C4. The mandate lines whose field is absent are not left out. For
    a document whose mandate holds a medium and nothing else, the
    mandate region shows all five lines, four of them reduced to their
    label or their default: the filter of line 32 tests the trimmed
    line, which is never empty because the label is part of it. *)
Theorem mandate_bare_labels_not_omitted :
  ReportDocument Hostile.medium_only = true
  /\ present (opt_get (prop Hostile.medium_only (lit "mandate"))
                (lit "emotional_axis")) = false
  /\ present (opt_get (prop Hostile.medium_only (lit "mandate"))
                (lit "constraints")) = false
  /\ present (opt_get (prop Hostile.medium_only (lit "mandate"))
                (lit "deliverable")) = false
  /\ forall p : App.page,
       snd (App.ReportView (Response 200 (Parsed Hostile.medium_only)) p)
       = Ok tt
       /\ dom (fst (App.ReportView (Response 200 (Parsed Hostile.medium_only))
                      p)) App.mandate
          = Text (lit "Compose: film" ++ [10%N]
                  ++ lit "Emotional axis:" ++ [10%N]
                  ++ lit "Constraint(s):" ++ [10%N]
                  ++ lit "Timebox: 8 hours" ++ [10%N]
                  ++ lit "Deliverable:").
Proof.
  repeat split.
Qed.

(** C5. For a successful response carrying an archive index whose
    dates are ISO dates, the list region shows one entry per date, in
    the order obtained by arranging the dates (none when [dates] is
    absent) in ascending code-unit order and reversing, which is
    descending order. Each entry is a block holding a link whose target
    is ["reports/"], the first four units of the date, ["/"], its units
    6 and 7, ["/"], the whole date and [".json"], and whose label is
    the date. For the dates 2026-02-08 and 2026-01-01 the links come in
    this order, the first with target [reports/2026/02/2026-02-08.json]. *)
Theorem archive_links_newest_first :
  (forall (Num : JsNumber) (st : N) (props : list (jsstring * json))
          (p : Archive.page),
      ok st = true ->
      DatedIndex (JObj props) = true ->
      exists asc : list jsstring,
        Permutation asc (texts_of (assoc (lit "dates") props))
        /\ Sorted (fun a b => JsString.leb a b = true) asc
        /\ Sorted (fun a b => JsString.leb b a = true) (rev asc)
        /\ snd (Archive.ArchiveView (Response st (Parsed (JObj props))) p)
           = Ok tt
        /\ Html.nodes_of
             (dom (fst (Archive.ArchiveView
                          (Response st (Parsed (JObj props))) p))
                Archive.list_el)
           = Some (map (fun d =>
                          Html.Element (lit "div") []
                            [ Html.Element (lit "a")
                                [(lit "href",
                                  lit "reports/" ++ JsString.slice 0 4 d
                                  ++ lit "/" ++ JsString.slice 5 7 d
                                  ++ lit "/" ++ d ++ lit ".json")]
                                [Html.TextNode d] ])
                       (rev asc)))
  /\ (forall p : Archive.page,
      Html.nodes_of
        (dom (fst (Archive.ArchiveView (Response 200 (Parsed Sample.two_dates))
                     p)) Archive.list_el)
      = Some [ Html.Element (lit "div") []
                 [ Html.Element (lit "a")
                     [(lit "href", lit "reports/2026/02/2026-02-08.json")]
                     [Html.TextNode (lit "2026-02-08")] ];
               Html.Element (lit "div") []
                 [ Html.Element (lit "a")
                     [(lit "href", lit "reports/2026/01/2026-01-01.json")]
                     [Html.TextNode (lit "2026-01-01")] ] ]).
Proof.
  split.
  - intros Num st props p Hst Hidx.
    destruct (dated_index props Hidx) as [Hshape Hiso].
    destruct (ArchiveView_shaped st props p Hst Hshape)
      as (asc & Hperm & Hasc & Hrun).
    exists asc. rewrite Hrun.
    split; [exact Hperm | split; [exact Hasc | split]].
    + exact (sorted_rev _ asc Hasc).
    + split; [reflexivity |].
      cbn [fst dom put Archive.region_eqb]. unfold Spec.archive_list.
      cbn [Html.nodes_of].
      apply parse_archive_list.
      apply forallb_forall. intros d Hd.
      apply in_rev in Hd.
      apply (Permutation_in _ Hperm) in Hd.
      exact (proj1 (forallb_forall _ _) Hiso d Hd).
  - intros p. vm_compute. reflexivity.
Qed.

Lemma archive_links_newest_first_witness :
  ok 200 = true
  /\ DatedIndex Sample.two_dates = true
  /\ exists asc : list jsstring,
       Permutation asc [lit "2026-02-08"; lit "2026-01-01"]
       /\ Html.nodes_of
            (dom (fst (Archive.ArchiveView
                         (Response 200 (Parsed Sample.two_dates))
                         Sample.previous_archive)) Archive.list_el)
          = Some (map (fun d =>
                         Html.Element (lit "div") []
                           [Html.link (Spec.archive_target d) d])
                      (rev asc)).
Proof.
  split; [reflexivity | split; [reflexivity |]].
  destruct (proj1 archive_links_newest_first IntegerNumber 200%N
              [(lit "dates", JArr [str "2026-02-08"; str "2026-01-01"])]
              Sample.previous_archive eq_refl eq_refl)
    as (asc & Hperm & _ & _ & _ & Hdom).
  exists asc. split; [exact Hperm | exact Hdom].
Defined.
